(** * Naya Daur: the grounded two-call fetch pipeline

    A shallow embedding of [fetchWithBackoff] and [fetchGroundedJson]
    (src/App.jsx, lines 71-159; the same [fetchWithBackoff] is repeated in
    "src/App 1st Ver.jsx", lines 1170-1200) and the properties of the
    retry policy and of the two-phase retrieval protocol.

    The asynchronous code is sequential: every promise is awaited or
    returned at once.  It is modelled in a state-and-exception monad over
    the trace of observable events (network requests, timer waits,
    console output, progress callbacks).  The network is an oracle that
    answers the n-th request.

    Numbers: [retries] and [delay] are integers ([Z]); the callers only
    ever pass the defaults 3 and 1000, and doubling is exact on JavaScript
    numbers.  Numbers inside JSON bodies are rationals, of which the code
    observes only whether they are zero.

    "src/App 1st Ver.jsx" holds an older copy of [fetchWithBackoff] as
    well (lines 123-142) that raises the status text without reading the
    body; its [try]/[catch] and its retries are the same.  Its
    [handleAnalyze] runs the two phases of [fetchGroundedJson] inline. *)

From Stdlib Require Import ZArith QArith String Ascii DecimalString List Bool Lia.
From Equations Require Import Equations.
Import ListNotations.

Set Warnings "-register-all".

Local Open Scope string_scope.
Local Open Scope list_scope.
Local Open Scope Z_scope.

(** ** JavaScript values that come out of a JSON body *)

Module Js.

Inductive json : Type :=
| JNull
| JBool (b : bool)
| JNum (q : Q)
| JStr (s : string)
| JArr (items : list json)
| JObj (fields : list (string * json)).

(** A JavaScript value as the code sees it: [None] is [undefined]. *)
Definition value := option json.

Fixpoint lookup (k : string) (fields : list (string * json)) : value :=
  match fields with
  | [] => None
  | (k', v) :: rest => if String.eqb k k' then Some v else lookup k rest
  end.

(** [v.k] for a value [v] that is neither [null] nor [undefined] and a key
    [k] that names no built-in property (true of "candidates", "content",
    "parts", "text", "error" and "message", the keys the code reads). *)
Definition member (v : json) (k : string) : value :=
  match v with
  | JObj fields => lookup k fields
  | _ => None
  end.

(** [v[0]]: the first element of an array, the property "0" of an object,
    the first character of a string. *)
Definition first (v : json) : value :=
  match v with
  | JArr (x :: _) => Some x
  | JObj fields => lookup "0" fields
  | JStr (String c _) => Some (JStr (String c EmptyString))
  | _ => None
  end.

(** Optional chaining [v?.step]: [undefined] when [v] is [null] or
    [undefined]. *)
Definition chain (v : value) (step : json -> value) : value :=
  match v with
  | None | Some JNull => None
  | Some j => step j
  end.

(** ToBoolean. *)
Definition truthy (v : value) : bool :=
  match v with
  | None | Some JNull | Some (JBool false) => false
  | Some (JNum q) => negb (Qnum q =? 0)
  | Some (JStr s) => negb (String.eqb s "")
  | Some _ => true
  end.

(** [a || b]. *)
Definition or_else (a b : value) : value := if truthy a then a else b.

End Js.

Export Js.

Notation "v ?. k" := (chain v (fun j => member j k))
  (at level 1, left associativity, k at level 0, format "v ?. k").
Notation "v ?.[0]" := (chain v first)
  (at level 1, left associativity, format "v ?.[0]").

(** ** Errors, requests, responses, events *)

Record error := mkError { name : string; message : string }.

(** [new Error(msg)], and the two built-in errors the pipeline can meet. *)
Definition Error (msg : string) : error := mkError "Error" msg.
Definition TypeError (msg : string) : error := mkError "TypeError" msg.
Definition SyntaxError (msg : string) : error := mkError "SyntaxError" msg.

Record Options := mkOptions {
  method : string;
  headers : list (string * string);
  body : string
}.

(** A [Response] as far as the code reads it.  [json] is what
    [response.json()] settles to: the parsed body, or the rejection. *)
Record Response := mkResponse {
  status : Z;
  statusText : string;
  json : error + Js.json
}.

(** [response.ok]: the status is in the range 200-299. *)
Definition ok (r : Response) : bool :=
  (200 <=? status r) && (status r <=? 299).

(** What a call of [fetch] settles to. *)
Inductive outcome :=
| Resolves (response : Response)
| Rejects (e : error).

Inductive event :=
| EvFetch (url : string) (options : Options)
| EvSleep (ms : Z)
| EvLog (errorBody : Js.json)
| EvLoading (msg : string).

Definition trace := list event.

Definition is_fetch (e : event) : bool :=
  match e with EvFetch _ _ => true | _ => false end.

(** Number of network requests issued so far. *)
Definition fetches (t : trace) : nat := length (filter is_fetch t).

Definition sleeps (t : trace) : list Z :=
  flat_map (fun e => match e with EvSleep d => [d] | _ => [] end) t.

(** The network answers the n-th request (counted from 0) of a run. *)
Definition Network := nat -> string -> Options -> outcome.

(** ** The monad of asynchronous computations *)

Inductive completion (A : Type) :=
| Normal (a : A)
| Throw (e : error).
Arguments Normal {A} a.
Arguments Throw {A} e.

Definition M (A : Type) := trace -> completion A * trace.

Definition ret {A} (a : A) : M A := fun t => (Normal a, t).

Definition throw {A} (e : error) : M A := fun t => (Throw e, t).

Definition bind {A B} (m : M A) (k : A -> M B) : M B :=
  fun t =>
    match m t with
    | (Normal a, t') => k a t'
    | (Throw e, t') => (Throw e, t')
    end.

Definition emit (e : event) : M unit := fun t => (Normal tt, t ++ [e]).

(** [try { body } catch (error) { handler }] in an async function.  The
    body ends by throwing or by a [return] statement.  A promise handed
    to [return] without [await] settles the function's own promise: when
    it rejects, the rejection is not caught by [handler].  So [body]
    yields the computation that [return] was given, which then runs
    outside the [try]. *)
Definition try_catch {A} (body : M (M A)) (handler : error -> M A) : M A :=
  fun t =>
    match body t with
    | (Normal returned, t') => returned t'
    | (Throw e, t') => handler e t'
    end.

(** The promise of [response.json()]: fulfilled with the parsed body or
    rejected with the parse error. *)
Definition settled {A} (p : error + A) : M A :=
  match p with
  | inr a => ret a
  | inl e => throw e
  end.

Declare Scope js_scope.
Delimit Scope js_scope with js.
Notation "x <- m ;; k" := (bind m (fun x => k))
  (at level 61, m at next level, right associativity) : js_scope.
Notation "m ;; k" := (bind m (fun _ => k))
  (at level 61, right associativity) : js_scope.
Local Open Scope js_scope.

(** Number::toString of an integer (a response status). *)
Definition decimal (z : Z) : string := NilZero.string_of_int (Z.to_int z).

Section Pipeline.

(** The platform: the network, and the built-ins whose results the code
    only passes on. *)
Variable net : Network.
Variable JSON_parse : string -> string + Js.json.
Variable JSON_stringify : Js.json -> string.
Variable Number_toString : Q -> string.

(** What ToPrimitive raises for an object without a string form. *)
Definition no_primitive : error :=
  TypeError "Cannot convert object to primitive value".

(** ToString, as a template literal and [JSON.parse] apply it.  An array
    is joined with commas, [null] elements giving the empty string.  An
    object is "[object Object]" by [Object.prototype.toString], unless it
    has an own "toString" property: a parsed value is never callable, and
    neither an own "valueOf" nor [Object.prototype.valueOf] gives a
    primitive, so the conversion raises a TypeError. *)
Fixpoint ToString (j : Js.json) : completion string :=
  match j with
  | JNull => Normal "null"
  | JBool true => Normal "true"
  | JBool false => Normal "false"
  | JNum q => Normal (Number_toString q)
  | JStr s => Normal s
  | JArr items =>
      (fix join (l : list Js.json) : completion string :=
         match l with
         | [] => Normal ""
         | x :: rest =>
             match (match x with JNull => Normal "" | _ => ToString x end) with
             | Throw e => Throw e
             | Normal item =>
                 match rest with
                 | [] => Normal item
                 | _ :: _ =>
                     match join rest with
                     | Throw e => Throw e
                     | Normal tail => Normal (item ++ "," ++ tail)%string
                     end
                 end
             end
         end) items
  | JObj fields =>
      match lookup "toString" fields with
      | Some _ => Throw no_primitive
      | None => Normal "[object Object]"
      end
  end.

Definition ToString_value (v : value) : completion string :=
  match v with
  | None => Normal "undefined"
  | Some j => ToString j
  end.

(** A completion that is already known, as a step of a computation. *)
Definition evaluate {A} (c : completion A) : M A := fun t => (c, t).

(** [await fetch(url, options)] *)
Definition fetch (url : string) (options : Options) : M Response :=
  fun t =>
    let t' := t ++ [EvFetch url options] in
    match net (fetches t) url options with
    | Resolves response => (Normal response, t')
    | Rejects e => (Throw e, t')
    end.

(** [await new Promise(res => setTimeout(res, delay))] *)
Definition sleep (delay : Z) : M unit := emit (EvSleep delay).

(** The message of a failed request (App.jsx, lines 81-88): the inner
    [try] reads the body, and its [catch] leaves the status text in
    place when the body is not JSON. *)
Definition detailedMessage (response : Response) : value :=
  match json response with
  | inr errorBody =>
      or_else ((Some errorBody)?."error"?."message")
              (Some (JStr (statusText response)))
  | inl _ => Some (JStr (statusText response))
  end.

(** The value logged at line 90: the parsed body, or [null]. *)
Definition errorBody (response : Response) : Js.json :=
  match json response with
  | inr b => b
  | inl _ => JNull
  end.

(** What line 91 throws:
    [new Error(`API Error: ${response.status} ${detailedMessage}`)], or
    the TypeError of the template literal when the message has no string
    form. *)
Definition api_error (response : Response) : error :=
  match ToString_value (detailedMessage response) with
  | Normal text =>
      Error ("API Error: " ++ decimal (status response) ++ " " ++ text)%string
  | Throw e => e
  end.

Equations? fetchWithBackoff (url : string) (options : Options)
    (retries delay : Z) : M Js.json by wf (Z.to_nat retries) lt :=
fetchWithBackoff url options retries delay :=
  try_catch
    (response <- fetch url options ;;
     if negb (ok response) then
       match sumbool_of_bool ((status response =? 429) && (retries >? 0)) with
       | left throttled =>
           sleep delay ;;
           ret (fetchWithBackoff url options (retries - 1) (delay * 2))
       | right _ =>
           emit (EvLog (errorBody response)) ;;
           throw (api_error response)
       end
     else ret (settled (json response)))
    (fun error =>
       match sumbool_of_bool (retries >? 0) with
       | left remaining =>
           sleep delay ;;
           fetchWithBackoff url options (retries - 1) (delay * 2)
       | right _ => throw error
       end).
Proof.
  - apply andb_prop in throttled. destruct throttled as [_ H].
    apply Z.gtb_lt in H. lia.
  - apply Z.gtb_lt in remaining. lia.
Qed.

(** [obj.k], which raises a TypeError on [null]. *)
Definition property (obj : Js.json) (k : string) : M value :=
  match obj with
  | JNull =>
      throw (TypeError ("Cannot read properties of null (reading '"
                          ++ k ++ "')")%string)
  | _ => ret (member obj k)
  end.

(** [data.candidates?.[0]?.content?.parts?.[0]?.text] *)
Definition first_text (data : Js.json) : M value :=
  candidates <- property data "candidates" ;;
  ret (candidates?.[0]?."content"?."parts"?.[0]?."text").

Definition loading1 : string := "Step 1/2: Searching for grounded insights...".
Definition loading2 : string := "Step 2/2: Analyzing and structuring data...".

(** The progress callback of the caller (a state setter). *)
Definition setLoadingMessage (msg : string) : M unit := emit (EvLoading msg).

Definition apiUrl (apiKey : string) : string :=
  ("https://generativelanguage.googleapis.com/v1beta/models/gemini-2.5-flash-preview-09-2025:generateContent?key="
     ++ apiKey)%string.

Definition contents (text : string) : Js.json :=
  JArr [JObj [("parts", JArr [JObj [("text", JStr text)]])]].

Definition searchPayload (textPrompt : string) : Js.json :=
  JObj [("contents", contents textPrompt);
        ("tools", JArr [JObj [("google_search", JObj [])]])].

(** The template literal of lines 128-137; it raises what the conversion
    of [groundedText] to a string raises. *)
Definition parseJsonPrompt (groundedText : value) : completion string :=
  match ToString_value groundedText with
  | Throw e => Throw e
  | Normal text =>
      Normal ("
    Parse the following market analysis text and convert it into a valid JSON object matching the provided schema.

    TEXT TO PARSE:
    ---
    " ++ text ++ "
    ---

    Respond ONLY with the valid JSON object.
  ")%string
  end.

Definition jsonPayload (prompt : string) (jsonSchema : Js.json) : Js.json :=
  JObj [("contents", contents prompt);
        ("generationConfig",
         JObj [("responseMimeType", JStr "application/json");
               ("responseSchema", jsonSchema)])].

Definition post (payload : Js.json) : Options :=
  {| method := "POST";
     headers := [("Content-Type", "application/json")];
     body := JSON_stringify payload |}.

Definition step1_failed : error :=
  Error "Step 1 Failed: No content returned from analysis.".

Definition step2_failed : error :=
  Error "Step 2 Failed: No JSON content returned from parsing.".

(** [JSON.parse(text)]: ToString, then the parser; a SyntaxError when the
    text is not JSON. *)
Definition parse (text : value) : M Js.json :=
  source <- evaluate (ToString_value text) ;;
  match JSON_parse source with
  | inr v => ret v
  | inl msg => throw (SyntaxError msg)
  end.

(** Both requests are made with the default [retries = 3] and
    [delay = 1000]. *)
Definition fetchGroundedJson (apiKey textPrompt : string)
    (jsonSchema : Js.json) : M Js.json :=
  setLoadingMessage loading1 ;;
  searchData <-
    fetchWithBackoff (apiUrl apiKey) (post (searchPayload textPrompt)) 3 1000 ;;
  groundedText <- first_text searchData ;;
  if negb (truthy groundedText) then throw step1_failed
  else
    setLoadingMessage loading2 ;;
    prompt <- evaluate (parseJsonPrompt groundedText) ;;
    jsonData <-
      fetchWithBackoff (apiUrl apiKey)
        (post (jsonPayload prompt jsonSchema)) 3 1000 ;;
    jsonText <- first_text jsonData ;;
    if truthy jsonText then parse jsonText
    else throw step2_failed.

End Pipeline.


(** ** Vocabulary of the statements *)

(** The text a response body carries, when the body is not [null]. *)
Definition text_of (data : Js.json) : value :=
  (member data "candidates")?.[0]?."content"?."parts"?.[0]?."text".

(** [n] throttled attempts: a request, then a wait that doubles. *)
Fixpoint throttled_attempts (url : string) (options : Options) (n : nat)
    (delay : Z) : trace :=
  match n with
  | O => []
  | S n' =>
      EvFetch url options :: EvSleep delay
        :: throttled_attempts url options n' (delay * 2)
  end.

(** Every request among [evs] is the request [url], [options]. *)
Definition requests_only (url : string) (options : Options) (evs : trace) : Prop :=
  Forall (fun e => is_fetch e = true -> e = EvFetch url options) evs.

(** ** A sample platform, for the concrete runs *)

Module Sample.

(** Number::toString on the integers. *)
Definition Number_toString (q : Q) : string := decimal (Qnum q / Zpos (Qden q)).

Definition quote : string := String (ascii_of_nat 34) EmptyString.

(** JSON.stringify on values whose strings need no escape. *)
Fixpoint JSON_stringify (j : Js.json) : string :=
  match j with
  | JNull => "null"
  | JBool true => "true"
  | JBool false => "false"
  | JNum q => Number_toString q
  | JStr s => quote ++ s ++ quote
  | JArr items =>
      "[" ++ (fix elements (l : list Js.json) : string :=
                match l with
                | [] => ""
                | [x] => JSON_stringify x
                | x :: rest => JSON_stringify x ++ "," ++ elements rest
                end) items ++ "]"
  | JObj fields =>
      "{" ++ (fix members (l : list (string * Js.json)) : string :=
                match l with
                | [] => ""
                | [(k, v)] => quote ++ k ++ quote ++ ":" ++ JSON_stringify v
                | (k, v) :: rest =>
                    quote ++ k ++ quote ++ ":" ++ JSON_stringify v ++ ","
                      ++ members rest
                end) fields ++ "}"
  end%string.

(** JSON.parse on the texts of the concrete runs: four JSON texts, and
    SyntaxError on texts that are not JSON. *)
Definition JSON_parse (text : string) : string + Js.json :=
  if String.eqb text "{}" then inr (JObj [])
  else if String.eqb text "[]" then inr (JArr [])
  else if String.eqb text "null" then inr JNull
  else if String.eqb text "true" then inr (JBool true)
  else if String.eqb text "" then inl "Unexpected end of JSON input"
  else inl "Unexpected token".

Definition url : string := "https://example.test/generate".
Definition options : Options := mkOptions "POST" [] "{}".

(** A body [{ candidates: [{ content: { parts: [{ text }] } }] }]. *)
Definition candidates_body (text : Js.json) : Js.json :=
  JObj [("candidates",
         JArr [JObj [("content", JObj [("parts", JArr [JObj [("text", text)]])])]])].

(** A body [{ error: { message } }]. *)
Definition error_body (msg : Js.json) : Js.json :=
  JObj [("error", JObj [("message", msg)])].

Definition http (status : Z) (statusText : string) (b : error + Js.json)
  : outcome := Resolves (mkResponse status statusText b).

Definition not_json : error + Js.json :=
  inl (SyntaxError "Unexpected token < in JSON at position 0").

(** The same outcome for every request. *)
Definition always (o : outcome) : Network := fun _ _ _ => o.

(** The outcomes of the successive requests; the last one repeats. *)
Fixpoint script (first : outcome) (rest : list outcome) (n : nat) : outcome :=
  match n, rest with
  | O, _ => first
  | S _, [] => first
  | S n', o :: rest' => script o rest' n'
  end.

Definition scripted (first : outcome) (rest : list outcome) : Network :=
  fun n _ _ => script first rest n.

Definition server_error : outcome :=
  http 500 "Internal Server Error" (inr (error_body (JStr "backend down"))).

Definition empty_message : outcome :=
  http 500 "Internal Server Error" (inr (error_body (JStr ""))).

Definition plain_500 : outcome := http 500 "Internal Server Error" not_json.

Definition throttled : outcome :=
  http 429 "Too Many Requests" (inr (error_body (JStr "quota exceeded"))).

Definition html_200 : outcome := http 200 "OK" not_json.

Definition grounded : outcome :=
  http 200 "OK" (inr (candidates_body (JStr "Three personas: A, B, C."))).

Definition structured (text : string) : outcome :=
  http 200 "OK" (inr (candidates_body (JStr text))).

Definition null_200 : outcome := http 200 "OK" (inr JNull).

Definition run_backoff (net : Network) (retries delay : Z)
  : completion Js.json * trace :=
  fetchWithBackoff net Number_toString url options retries delay [].

Definition run_retrieve (net : Network) : completion Js.json * trace :=
  fetchGroundedJson net JSON_parse JSON_stringify Number_toString
    "KEY" "Generate 3 personas" (JObj []) [].

End Sample.

(** ** Outcomes of a request, as the caller of [fetchWithBackoff] sees them *)

(** An outcome that [fetchWithBackoff] answers with a retry when one is
    left: a rejected request, or a response that is not 2xx. *)
Definition failed (o : outcome) : bool :=
  match o with
  | Rejects _ => true
  | Resolves response => negb (ok response)
  end.

(** What the call settles to when [o] is the outcome of its last
    request. *)
Definition settle (Number_toString : Q -> string) (o : outcome)
  : completion Js.json :=
  match o with
  | Rejects e => Throw e
  | Resolves response =>
      if ok response then
        match json response with
        | inr b => Normal b
        | inl e => Throw e
        end
      else Throw (api_error Number_toString response)
  end.

(** The waits of a call that makes [n] retries. *)
Definition backoff_delays (delay : Z) (n : nat) : list Z :=
  map (fun i => delay * 2 ^ Z.of_nat i) (seq 0 n).

Definition total (waits : list Z) : Z := fold_right Z.add 0 waits.

(** The events of a call of [fetchWithBackoff]: its request, a wait, the
    log of an error body. *)
Definition backoff_event (url : string) (options : Options) (e : event) : Prop :=
  match e with
  | EvFetch url' options' => url' = url /\ options' = options
  | EvSleep _ | EvLog _ => True
  | EvLoading _ => False
  end.

(** A request of [fetchGroundedJson]: a POST of a JSON payload to the
    generation endpoint, with the key in the URL. *)
Definition retrieval_event (JSON_stringify : Js.json -> string)
    (apiKey : string) (e : event) : Prop :=
  match e with
  | EvFetch url options =>
      url = apiUrl apiKey /\ exists payload, options = post JSON_stringify payload
  | _ => True
  end.

(** ** The tabs: handlers over React state *)

(** What a handler does, in order: the events of the pipeline, calls of
    state setters, calls of the [onError] prop, console output. *)
Inductive ui_event :=
| Core (e : event)
| SetState (setter : string) (v : Js.json)
| OnError (msg : string)
| ConsoleError (err : error).

Definition ui_trace := list ui_event.

(** The pipeline's part of a handler's trace. *)
Definition core (u : ui_trace) : trace :=
  flat_map (fun e => match e with Core c => [c] | _ => [] end) u.

Definition UI (A : Type) := ui_trace -> completion A * ui_trace.

Definition ui_ret {A} (a : A) : UI A := fun u => (Normal a, u).

Definition ui_throw {A} (e : error) : UI A := fun u => (Throw e, u).

Definition ui_bind {A B} (m : UI A) (k : A -> UI B) : UI B :=
  fun u =>
    match m u with
    | (Normal a, u') => k a u'
    | (Throw e, u') => (Throw e, u')
    end.

Definition ui_emit (e : ui_event) : UI unit := fun u => (Normal tt, u ++ [e]).

(** [await m] for a computation of the pipeline: it runs on the
    pipeline's part of the trace, and what it adds is added here. *)
Definition lift {A} (m : M A) : UI A :=
  fun u =>
    let t := core u in
    match m t with
    | (r, t') => (r, u ++ map Core (skipn (length t) t'))
    end.

(** A completion that is already known. *)
Definition complete {A} (c : completion A) : UI A := fun u => (c, u).

(** [try { body } catch (err) { handler } finally { finalizer }] *)
Definition try_catch_finally {A} (body : UI A) (handler : error -> UI A)
    (finalizer : UI unit) : UI A :=
  fun u =>
    let '(r, u1) :=
      match body u with
      | (Normal a, u') => (Normal a, u')
      | (Throw e, u') => handler e u'
      end in
    match finalizer u1 with
    | (Normal _, u2) => (r, u2)
    | (Throw e, u2) => (Throw e, u2)
    end.

Declare Scope ui_scope.
Delimit Scope ui_scope with ui.
Notation "x <- m ;; k" := (ui_bind m (fun x => k))
  (at level 61, m at next level, right associativity) : ui_scope.
Notation "m ;; k" := (ui_bind m (fun _ => k))
  (at level 61, right associativity) : ui_scope.

Definition dquote : string := String (ascii_of_nat 34) EmptyString.

(** [{ ...prev, [name]: value }] on the fields of an object: the value
    of an existing key is replaced in place, a new key comes last (the
    keys written this way, input names and "id", are not array
    indices, which JavaScript would enumerate first). *)
Fixpoint set_field (name : string) (v : Js.json) (fields : list (string * Js.json))
  : list (string * Js.json) :=
  match fields with
  | [] => [(name, v)]
  | (k, v') :: rest =>
      if String.eqb name k then (name, v) :: rest
      else (k, v') :: set_field name v rest
  end.

(** The updater that [handleInputChange] hands to [setInputs]
    (App.jsx, lines 524-527), for the event target's [name] and [value]. *)
Definition handleInputChange (name value : string)
    (prev : list (string * Js.json)) : list (string * Js.json) :=
  set_field name (JStr value) prev.

Definition characters (s : string) : list Js.json :=
  map (fun c => JStr (String c EmptyString)) (list_ascii_of_string s).

Definition indexed (items : list Js.json) : list (string * Js.json) :=
  combine (map (fun i => decimal (Z.of_nat i)) (seq 0 (length items))) items.

(** The own enumerable properties that [{ ...v }] copies. *)
Definition spread (v : Js.json) : list (string * Js.json) :=
  match v with
  | JObj fields => fields
  | JArr items => indexed items
  | JStr s => indexed (characters s)
  | _ => []
  end.

(** [a || b] when [b] is defined. *)
Definition or_default (a : value) (b : Js.json) : Js.json :=
  match a with
  | Some v => if truthy a then v else b
  | None => b
  end.

(** The callback of line 1120:
    [(concept, index) => ({ ...concept, id: concept.id || index + 1 })] *)
Definition with_id (concept : Js.json) (index : nat) : completion Js.json :=
  match concept with
  | JNull => Throw (TypeError "Cannot read properties of null (reading 'id')")
  | _ =>
      Normal (JObj (set_field "id"
                      (or_default (member concept "id")
                                  (JNum (inject_Z (Z.of_nat index + 1))))
                      (spread concept)))
  end.

(** [concepts.map(callback)], from [index] on. *)
Fixpoint map_ids (concepts : list Js.json) (index : nat)
  : completion (list Js.json) :=
  match concepts with
  | [] => Normal []
  | concept :: rest =>
      match with_id concept index with
      | Throw e => Throw e
      | Normal c =>
          match map_ids rest (S index) with
          | Throw e => Throw e
          | Normal cs => Normal (c :: cs)
          end
      end
  end.

(** [data.concepts = data.concepts.map(...)] (line 1120), giving [data]
    after the assignment.  Only an array has a [map] to call; the
    messages of the TypeErrors are those of V8. *)
Definition assign_ids (data : Js.json) : completion Js.json :=
  match data with
  | JNull =>
      Throw (TypeError "Cannot read properties of null (reading 'concepts')")
  | JObj fields =>
      match lookup "concepts" fields with
      | None =>
          Throw (TypeError "Cannot read properties of undefined (reading 'map')")
      | Some JNull =>
          Throw (TypeError "Cannot read properties of null (reading 'map')")
      | Some (JArr concepts) =>
          match map_ids concepts 0 with
          | Throw e => Throw e
          | Normal cs => Normal (JObj (set_field "concepts" (JArr cs) fields))
          end
      | Some _ => Throw (TypeError "data.concepts.map is not a function")
      end
  | _ => Throw (TypeError "Cannot read properties of undefined (reading 'map')")
  end.

(** A concept with its id: an object whose [id] is truthy and is the
    concept's own [id] when that one is truthy, and whose other fields
    are those of the concept. *)
Definition identified (concept result : Js.json) : Prop :=
  exists fields,
    result = JObj fields /\
    truthy (lookup "id" fields) = true /\
    (truthy (member concept "id") = true ->
     lookup "id" fields = member concept "id") /\
    (forall k, k <> "id" -> lookup k fields = lookup k (spread concept)).

Definition api_key_missing : string :=
  "Please set your API Key in the Welcome tab first.".

(** [err.message || fallback] *)
Definition message_or (err : error) (fallback : string) : string :=
  if String.eqb (message err) "" then fallback else message err.

(** What a handler shows when its work completed with [c]: the value goes
    to the state setter, an error goes to the console and to [onError]. *)
Definition shown (setter fallback : string) (c : completion Js.json)
  : ui_trace :=
  match c with
  | Normal v => [SetState setter v]
  | Throw err => [ConsoleError err; OnError (message_or err fallback)]
  end.

Definition and_then {A B} (c : completion A) (k : A -> completion B)
  : completion B :=
  match c with
  | Normal a => k a
  | Throw e => Throw e
  end.

Definition personaArchitectSchema : Js.json :=
  JObj
    [("type", JStr "OBJECT");
     ("properties", JObj
       [("personas", JObj
          [("type", JStr "ARRAY");
           ("items", JObj
             [("type", JStr "OBJECT");
              ("properties", JObj
                [("name", JObj [("type", JStr "STRING")]);
                 ("age", JObj [("type", JStr "NUMBER")]);
                 ("role", JObj [("type", JStr "STRING")]);
                 ("demographic", JObj [("type", JStr "STRING")]);
                 ("psychographics", JObj
                   [("type", JStr "ARRAY");
                    ("items", JObj [("type", JStr "STRING")])]);
                 ("painPoints", JObj
                   [("type", JStr "ARRAY");
                    ("items", JObj [("type", JStr "STRING")])]);
                 ("motivators", JObj
                   [("type", JStr "ARRAY");
                    ("items", JObj [("type", JStr "STRING")])]);
                 ("preferredChannels", JObj
                   [("type", JStr "ARRAY");
                    ("items", JObj [("type", JStr "STRING")])]);
                 ("keyMessage", JObj [("type", JStr "STRING")])]);
              ("required", JArr [JStr "name"; JStr "age"; JStr "role"; JStr "demographic"; JStr "psychographics"; JStr "painPoints"; JStr "motivators"; JStr "preferredChannels"; JStr "keyMessage"])])])]);
     ("required", JArr [JStr "personas"])].

Definition campaignSchema : Js.json :=
  JObj
    [("type", JStr "OBJECT");
     ("properties", JObj
       [("strategy", JObj [("type", JStr "STRING")]);
        ("rationale", JObj [("type", JStr "STRING")]);
        ("kpis", JObj
          [("type", JStr "ARRAY");
           ("items", JObj
             [("type", JStr "OBJECT");
              ("properties", JObj
                [("metric", JObj [("type", JStr "STRING")]);
                 ("value", JObj [("type", JStr "STRING")])])])]);
        ("framework", JObj
          [("type", JStr "OBJECT");
           ("properties", JObj
             [("coreMessage", JObj [("type", JStr "STRING")]);
              ("channelStrategy", JObj [("type", JStr "STRING")]);
              ("contentCalendar", JObj [("type", JStr "STRING")]);
              ("riskMitigation", JObj [("type", JStr "STRING")])])]);
        ("concepts", JObj
          [("type", JStr "ARRAY");
           ("items", JObj
             [("type", JStr "OBJECT");
              ("properties", JObj
                [("id", JObj [("type", JStr "NUMBER")]);
                 ("title", JObj [("type", JStr "STRING")]);
                 ("summary", JObj [("type", JStr "STRING")]);
                 ("visualIdea", JObj [("type", JStr "STRING")])])])])]);
     ("required", JArr [JStr "strategy"; JStr "rationale"; JStr "kpis"; JStr "framework"; JStr "concepts"])].

Section Tabs.

Variable net : Network.
Variable JSON_parse : string -> string + Js.json.
Variable JSON_stringify : Js.json -> string.
Variable Number_toString : Q -> string.

Local Open Scope ui_scope.

(** [inputs.k] inside a template literal.  The inputs of a tab are
    strings: the state starts with empty strings and [handleInputChange]
    stores the value of an input element. *)
Definition field (inputs : list (string * string)) (k : string) : string :=
  match find (fun entry => String.eqb k (fst entry)) inputs with
  | Some entry => snd entry
  | None => "undefined"
  end.

Definition onError (msg : string) : UI unit := ui_emit (OnError msg).

Definition setState (setter : string) (v : Js.json) : UI unit :=
  ui_emit (SetState setter v).

(** The [catch] block of the handlers:
    [console.error(err); onError(err.message || fallback)] *)
Definition report (fallback : string) (err : error) : UI unit :=
  ui_emit (ConsoleError err) ;;
  onError (message_or err fallback).

Definition personaPrompt (inputs : list (string * string)) : string :=
  ("
      Act as a senior market researcher. Generate 3 distinct, deep-dive marketing personas for a company selling "
    ++ dquote
    ++ (field inputs "product")
    ++ dquote
    ++ " in "
    ++ dquote
    ++ (field inputs "location")
    ++ dquote
    ++ ".
      For each persona, find real, data-backed psychographics, pain points, motivations, media consumption habits, and a key persuasive message.
      Ensure the personas are distinct and realistic for the specified location.
    ")%string.

(** [handleGenerate] of the Persona Architect tab (App.jsx, lines
    529-553). *)
Definition handleGenerate (apiKey : string) (inputs : list (string * string))
  : UI unit :=
  if String.eqb apiKey "" then onError api_key_missing
  else
    setState "setIsLoading" (JBool true) ;;
    setState "setResult" JNull ;;
    try_catch_finally
      (data <- lift (fetchGroundedJson net JSON_parse JSON_stringify
                       Number_toString apiKey (personaPrompt inputs)
                       personaArchitectSchema) ;;
       setState "setResult" data)
      (report "Failed to generate personas.")
      (setState "setIsLoading" (JBool false) ;;
       lift (setLoadingMessage "")).

Definition strategyPrompt (inputs : list (string * string)) : string :=
  ("
      Create a full campaign strategy for:
      - Company: "
    ++ (field inputs "companyName")
    ++ " ("
    ++ (field inputs "website")
    ++ ")
      - Target: "
    ++ (field inputs "city")
    ++ ", "
    ++ (field inputs "country")
    ++ "
      - Reference Image (Optional): "
    ++ (field inputs "imageURL")
    ++ "

      Provide a detailed text report covering:
      1.  strategy: A brief campaign strategy.
      2.  rationale: The rationale behind it.
      3.  kpis: A list of 3-4 conservative KPI estimations (e.g., Brand Awareness Lift: 5-10%).
      4.  framework: Details for coreMessage, channelStrategy, contentCalendar, and riskMitigation.
      5.  concepts: A list of 6 distinct campaign concepts. Each concept should have a title, summary, and a visualIdea (a short description for an image generator).
    ")%string.

(** [handleGenerateStrategy] of the Campaign Forge tab (App.jsx, lines
    1093-1129). *)
Definition handleGenerateStrategy (apiKey : string)
    (inputs : list (string * string)) : UI unit :=
  if String.eqb apiKey "" then onError api_key_missing
  else
    setState "setIsStrategyLoading" (JBool true) ;;
    setState "setStrategyResult" JNull ;;
    setState "setSelectedConcept" JNull ;;
    setState "setGeneratedImages" (JArr []) ;;
    try_catch_finally
      (data <- lift (fetchGroundedJson net JSON_parse JSON_stringify
                       Number_toString apiKey (strategyPrompt inputs)
                       campaignSchema) ;;
       data <- complete (assign_ids data) ;;
       setState "setStrategyResult" data)
      (report "Failed to generate strategy.")
      (setState "setIsStrategyLoading" (JBool false) ;;
       lift (setLoadingMessage "")).

(** The template literal of lines 1139-1146; it raises what the
    conversion of the concept's [title] or [visualIdea] raises. *)
Definition imagePrompt (inputs : list (string * string))
    (selectedConcept : Js.json) : completion string :=
  and_then (ToString_value Number_toString (member selectedConcept "title"))
    (fun title =>
  and_then (ToString_value Number_toString (member selectedConcept "visualIdea"))
    (fun visualIdea =>
  Normal ("
      Create a high-quality, visually appealing campaign image for an ad.
      The campaign is for: "
    ++ (field inputs "companyName")
    ++ "
      The concept is: "
    ++ title
    ++ ".
      Visual Idea: "
    ++ visualIdea
    ++ ".
      Target location: "
    ++ (field inputs "city")
    ++ ", "
    ++ (field inputs "country")
    ++ ".
      Style: Modern, professional, tech-focused, dark theme.
      Use a color palette of deep purple, indigo, bright violet, and white text.
    ")%string)).

Definition imageUrl (apiKey : string) : string :=
  ("https://generativelanguage.googleapis.com/v1beta/models/imagen-4.0-generate-001:predict?key="
     ++ apiKey)%string.

Definition imagePayload (prompt : string) : Js.json :=
  JObj [("instances", JArr [JObj [("prompt", JStr prompt)]]);
        ("parameters", JObj [("sampleCount", JNum (inject_Z 2))])].

(** The callback of lines 1162-1164:
    [(pred) => `data:image/png;base64,${pred.bytesBase64Encoded}`] *)
Definition image_of (pred : Js.json) : completion string :=
  match pred with
  | JNull =>
      Throw (TypeError
               "Cannot read properties of null (reading 'bytesBase64Encoded')")
  | _ =>
      match ToString_value Number_toString (member pred "bytesBase64Encoded") with
      | Throw e => Throw e
      | Normal bytes => Normal ("data:image/png;base64," ++ bytes)%string
      end
  end.

Fixpoint map_images (predictions : list Js.json) : completion (list string) :=
  match predictions with
  | [] => Normal []
  | pred :: rest =>
      match image_of pred with
      | Throw e => Throw e
      | Normal image =>
          match map_images rest with
          | Throw e => Throw e
          | Normal images => Normal (image :: images)
          end
      end
  end.

(** [data.predictions?.map(callback)]: [None] is [undefined]. *)
Definition images_of (data : Js.json) : completion (option (list string)) :=
  match data with
  | JNull =>
      Throw (TypeError
               "Cannot read properties of null (reading 'predictions')")
  | _ =>
      match member data "predictions" with
      | None | Some JNull => Normal None
      | Some (JArr predictions) =>
          match map_images predictions with
          | Throw e => Throw e
          | Normal images => Normal (Some images)
          end
      | Some _ => Throw (TypeError "data.predictions?.map is not a function")
      end
  end.

Definition no_concept_selected : string := "Please select a concept first.".

Definition no_images : error := Error "No images returned from API.".

(** The images a body gives, as the value handed to
    [setGeneratedImages], or the error raised instead. *)
Definition generated_images (data : Js.json) : completion Js.json :=
  and_then (images_of data) (fun images =>
    match images with
    | Some (image :: rest) => Normal (JArr (map JStr (image :: rest)))
    | _ => Throw no_images
    end).

(** [handleGenerateImages] of the Campaign Forge tab (App.jsx, lines
    1131-1177); [selectedConcept] is the state, [null] when no concept is
    selected. *)
Definition handleGenerateImages (apiKey : string)
    (inputs : list (string * string)) (selectedConcept : Js.json) : UI unit :=
  if String.eqb apiKey "" || negb (truthy (Some selectedConcept))
  then onError no_concept_selected
  else
    setState "setIsImageLoading" (JBool true) ;;
    setState "setGeneratedImages" (JArr []) ;;
    prompt <- complete (imagePrompt inputs selectedConcept) ;;
    try_catch_finally
      (data <- lift (fetchWithBackoff net Number_toString (imageUrl apiKey)
                       (post JSON_stringify (imagePayload prompt))
                       3 1000) ;;
       images <- complete (images_of data) ;;
       match images with
       | Some (image :: rest) =>
           setState "setGeneratedImages" (JArr (map JStr (image :: rest)))
       | _ => ui_throw no_images
       end)
      (report "Failed to generate images.")
      (setState "setIsImageLoading" (JBool false)).

End Tabs.

(** ** Sample inputs of the tabs, for the concrete runs *)

Module Demo.

Import Sample.

Definition offline : outcome := Rejects (TypeError "Failed to fetch").

Definition inputs : list (string * string) :=
  [("product", "tea"); ("location", "Pune")].

(** A campaign with two concepts, the second of which has an id. *)
Definition campaign : Js.json :=
  JObj [("strategy", JStr "Monsoon launch");
        ("concepts",
         JArr [JObj [("title", JStr "Chai break")];
               JObj [("id", JNum (inject_Z 7)); ("title", JStr "First rain")]])].

(** A campaign whose concepts have no ids. *)
Definition fresh_concepts : list Js.json :=
  [JObj [("title", JStr "Chai break")]; JObj [("title", JStr "First rain")]].

Definition concept : Js.json :=
  JObj [("id", JNum (inject_Z 1)); ("title", JStr "Chai break");
        ("visualIdea", JStr "A cup on a window sill")].

Definition predictions : Js.json :=
  JObj [("predictions",
         JArr [JObj [("bytesBase64Encoded", JStr "iVBORw0KGgo=")];
               JObj [("bytesBase64Encoded", JStr "iVBORw0KGgp=")]])].

Definition images_200 : outcome := http 200 "OK" (inr predictions).


End Demo.

(** ** The retry policy of [fetchWithBackoff] *)

(** Closes the side goals about a trace segment with one request. *)
Ltac single_request :=
  simpl; repeat split;
  try (unfold requests_only; repeat constructor; simpl; intros;
       first [reflexivity | discriminate]);
  try (unfold fetches; simpl; lia).

Section Backoff.

Variable net : Network.
Variable Number_toString : Q -> string.

Local Notation "'fwb'" := (fetchWithBackoff net Number_toString).
Local Notation "'api_err'" := (api_error Number_toString).

(** One attempt of [fetchWithBackoff], by the outcome of its request:
    the first-order reading of the function body. *)
Lemma fetchWithBackoff_attempt url options retries delay t :
  fwb url options retries delay t =
  match net (fetches t) url options with
  | Rejects e =>
      if retries >? 0
      then fwb url options (retries - 1) (delay * 2)
             (t ++ [EvFetch url options; EvSleep delay])
      else (Throw e, t ++ [EvFetch url options])
  | Resolves response =>
      if ok response then settled (json response) (t ++ [EvFetch url options])
      else if (status response =? 429) && (retries >? 0)
      then fwb url options (retries - 1) (delay * 2)
             (t ++ [EvFetch url options; EvSleep delay])
      else if retries >? 0
      then fwb url options (retries - 1) (delay * 2)
             (t ++ [EvFetch url options; EvLog (errorBody response);
                    EvSleep delay])
      else (Throw (api_err response),
            t ++ [EvFetch url options; EvLog (errorBody response)])
  end.
Proof.
  rewrite fetchWithBackoff_equation_1.
  unfold try_catch, bind, fetch, sleep, emit, ret, throw.
  destruct (net (fetches t) url options) as [response | e].
  - destruct (ok response); simpl.
    + reflexivity.
    + destruct (sumbool_of_bool ((status response =? 429) && (retries >? 0)))
        as [throttled | other]; rewrite ?throttled, ?other.
      * now rewrite <- app_assoc.
      * destruct (sumbool_of_bool (retries >? 0)) as [more | last];
          rewrite ?more, ?last; now rewrite <- !app_assoc.
  - destruct (sumbool_of_bool (retries >? 0)) as [more | last];
      rewrite ?more, ?last; [now rewrite <- app_assoc | reflexivity].
Qed.


Lemma fetches_app t evs : fetches (t ++ evs) = (fetches t + fetches evs)%nat.
Proof. unfold fetches. now rewrite filter_app, length_app. Qed.

Lemma sleeps_app t evs : sleeps (t ++ evs) = sleeps t ++ sleeps evs.
Proof. unfold sleeps. apply flat_map_app. Qed.

Lemma ok_429 response : status response = 429 -> ok response = false.
Proof. unfold ok. now intros ->. Qed.

(** A 429 answer with retries left: one wait of [delay], then the call
    with [retries - 1] and [delay * 2]. *)
Lemma fetchWithBackoff_throttled url options retries delay t response :
  net (fetches t) url options = Resolves response ->
  status response = 429 -> 0 < retries ->
  fwb url options retries delay t =
  fwb url options (retries - 1) (delay * 2)
    (t ++ [EvFetch url options; EvSleep delay]).
Proof.
  intros Hnet H429 Hpos. rewrite fetchWithBackoff_attempt, Hnet.
  rewrite (ok_429 _ H429), H429.
  replace (retries >? 0) with true by (symmetry; now apply Z.gtb_lt).
  reflexivity.
Qed.

(** Any other failed response with retries left is retried as well: the
    error thrown at line 91 is caught at line 94. *)
Lemma fetchWithBackoff_error_retried url options retries delay t response :
  net (fetches t) url options = Resolves response ->
  ok response = false -> status response <> 429 -> 0 < retries ->
  fwb url options retries delay t =
  fwb url options (retries - 1) (delay * 2)
    (t ++ [EvFetch url options; EvLog (errorBody response); EvSleep delay]).
Proof.
  intros Hnet Hok H429 Hpos. rewrite fetchWithBackoff_attempt, Hnet, Hok.
  apply Z.eqb_neq in H429. rewrite H429. simpl.
  replace (retries >? 0) with true by (symmetry; now apply Z.gtb_lt).
  reflexivity.
Qed.

(** A failed response with no retry left raises the API error. *)
Lemma fetchWithBackoff_error_last url options retries delay t response :
  net (fetches t) url options = Resolves response ->
  ok response = false -> retries <= 0 ->
  fwb url options retries delay t =
  (Throw (api_err response),
   t ++ [EvFetch url options; EvLog (errorBody response)]).
Proof.
  intros Hnet Hok Hlast. rewrite fetchWithBackoff_attempt, Hnet, Hok.
  replace (retries >? 0) with false
    by (symmetry; apply not_true_is_false; rewrite Z.gtb_lt; lia).
  now rewrite andb_false_r.
Qed.

(** Induction on the retries that remain. *)
Lemma retries_ind (P : Z -> Prop) :
  (forall retries, retries <= 0 -> P retries) ->
  (forall retries, 0 < retries -> P (retries - 1) -> P retries) ->
  forall retries, P retries.
Proof.
  intros Hlast Hstep retries.
  destruct (Z_le_gt_dec retries 0) as [Hle | Hgt]; [now apply Hlast |].
  replace retries with (Z.of_nat (Z.to_nat retries)) by lia.
  induction (Z.to_nat retries) as [| n IH].
  - apply Hlast. lia.
  - apply Hstep; [lia |].
    replace (Z.of_nat (S n) - 1) with (Z.of_nat n) by lia. exact IH.
Qed.

(** What a call adds to the trace: between 1 and [retries + 1] requests,
    all of them the request it was given. *)
Lemma fetchWithBackoff_trace url options retries :
  forall delay t,
  exists evs,
    snd (fwb url options retries delay t) = t ++ evs /\
    requests_only url options evs /\
    (1 <= fetches evs <= Z.to_nat retries + 1)%nat.
Proof.
  induction retries as [retries Hlast | retries Hpos IH] using retries_ind;
    intros delay t; rewrite fetchWithBackoff_attempt.
  - replace (retries >? 0) with false
      by (symmetry; apply not_true_is_false; rewrite Z.gtb_lt; lia).
    destruct (net (fetches t) url options) as [response | e].
    + destruct (ok response).
      * exists [EvFetch url options].
        destruct (json response); single_request.
      * rewrite andb_false_r.
        exists [EvFetch url options; EvLog (errorBody response)].
        single_request.
    + exists [EvFetch url options]. single_request.
  - replace (retries >? 0) with true by (symmetry; now apply Z.gtb_lt).
    assert (Hshift :
      forall pre, requests_only url options pre ->
        fetches pre = 1%nat ->
        exists evs,
          snd (fwb url options (retries - 1) (delay * 2) (t ++ pre)) = t ++ evs /\
          requests_only url options evs /\
          (1 <= fetches evs <= Z.to_nat retries + 1)%nat).
    { intros pre Hpre Hone.
      destruct (IH (delay * 2) (t ++ pre)) as (evs & Htr & Hreq & Hcount).
      exists (pre ++ evs). rewrite Htr, app_assoc. split; [reflexivity |].
      split; [now apply Forall_app |].
      rewrite fetches_app, Hone. lia. }
    destruct (net (fetches t) url options) as [response | e].
    + destruct (ok response).
      * exists [EvFetch url options].
        destruct (json response); single_request.
      * rewrite andb_true_r.
        destruct (status response =? 429); apply Hshift; single_request.
    + apply Hshift; single_request.
Qed.

Lemma sleeps_throttled_attempts url options n :
  forall delay,
  sleeps (throttled_attempts url options n delay) =
  map (fun i => delay * 2 ^ Z.of_nat i) (seq 0 n).
Proof.
  induction n as [| n IH]; intros delay; [reflexivity |].
  cbn [throttled_attempts seq map]. unfold sleeps in *. cbn [flat_map app].
  rewrite IH, <- seq_shift, map_map. f_equal; [simpl; lia |].
  apply map_ext. intros i. rewrite Nat2Z.inj_succ, Z.pow_succ_r; lia.
Qed.

Lemma fetches_throttled_attempts url options n :
  forall delay, fetches (throttled_attempts url options n delay) = n.
Proof.
  induction n as [| n IH]; intros delay; [reflexivity |].
  unfold fetches in *. simpl. now rewrite IH.
Qed.

(** A network that keeps answering 429 uses up every retry. *)
Lemma throttled_run url options n :
  forall delay t,
  (forall i, (i <= n)%nat ->
     exists response,
       net (fetches t + i)%nat url options = Resolves response /\
       status response = 429) ->
  exists last,
    net (fetches t + n)%nat url options = Resolves last /\
    status last = 429 /\
    fwb url options (Z.of_nat n) delay t =
    (Throw (api_err last),
     t ++ throttled_attempts url options n delay
       ++ [EvFetch url options; EvLog (errorBody last)]).
Proof.
  induction n as [| n IH]; intros delay t Hnet.
  - destruct (Hnet 0%nat (Nat.le_refl _)) as (last & Hlast & H429).
    exists last. split; [exact Hlast | split; [exact H429 |]].
    rewrite Nat.add_0_r in Hlast.
    now apply fetchWithBackoff_error_last; [| apply ok_429 |].
  - destruct (Hnet 0%nat (Nat.le_0_l _)) as (response & Hfirst & H429).
    rewrite Nat.add_0_r in Hfirst.
    rewrite (fetchWithBackoff_throttled _ _ _ _ _ _ Hfirst H429) by lia.
    replace (Z.of_nat (S n) - 1) with (Z.of_nat n) by lia.
    destruct (IH (delay * 2) (t ++ [EvFetch url options; EvSleep delay]))
      as (last & Hlast & Hlast429 & Hrun).
    + intros i Hi. rewrite fetches_app. cbn [fetches filter is_fetch length].
      replace (fetches t + 1 + i)%nat with (fetches t + S i)%nat by lia.
      apply Hnet. lia.
    + rewrite fetches_app in Hlast. cbn [fetches filter is_fetch length] in Hlast.
      replace (fetches t + 1 + n)%nat with (fetches t + S n)%nat in Hlast by lia.
      exists last. split; [exact Hlast | split; [exact Hlast429 |]].
      rewrite Hrun, <- app_assoc. reflexivity.
Qed.

(** C2: a call that is answered 429 while retries remain waits [delay]
    once and calls itself with [retries - 1] and [delay * 2]; when the
    network keeps answering 429, this happens exactly once per remaining
    retry, the i-th wait being [delay * 2 ^ i], and the call with no
    retry left raises the API error of the last response to the caller. *)
Theorem throttled_backoff url options retries delay t :
  0 < retries ->
  (forall i, (i <= Z.to_nat retries)%nat ->
     exists response,
       net (fetches t + i)%nat url options = Resolves response /\
       status response = 429) ->
  exists first last evs,
    net (fetches t) url options = Resolves first /\
    net (fetches t + Z.to_nat retries)%nat url options = Resolves last /\
    status last = 429 /\
    fwb url options retries delay t =
    fwb url options (retries - 1) (delay * 2)
      (t ++ [EvFetch url options; EvSleep delay]) /\
    fwb url options retries delay t = (Throw (api_err last), t ++ evs) /\
    evs = throttled_attempts url options (Z.to_nat retries) delay
            ++ [EvFetch url options; EvLog (errorBody last)] /\
    fetches evs = S (Z.to_nat retries) /\
    sleeps evs = map (fun i => delay * 2 ^ Z.of_nat i) (seq 0 (Z.to_nat retries)).
Proof.
  intros Hpos Hnet.
  destruct (Hnet 0%nat (Nat.le_0_l _)) as (first & Hfirst & H429).
  rewrite Nat.add_0_r in Hfirst.
  destruct (throttled_run url options _ delay t Hnet)
    as (last & Hlast & Hlast429 & Hrun).
  rewrite Z2Nat.id in Hrun by lia.
  exists first, last. eexists. repeat split; try eassumption.
  - now apply fetchWithBackoff_throttled with (response := first).
  - rewrite fetches_app, fetches_throttled_attempts.
    cbn [fetches filter is_fetch length]. lia.
  - rewrite sleeps_app, sleeps_throttled_attempts. cbn. apply app_nil_r.
Qed.

(** C3: with [retries = 0] a call makes exactly one request and never
    waits, whatever the request settles to. *)
Theorem no_retries_single_attempt url options delay t :
  exists result evs,
    fwb url options 0 delay t = (result, t ++ evs) /\
    fetches evs = 1%nat /\
    sleeps evs = [].
Proof.
  rewrite fetchWithBackoff_attempt. change (0 >? 0) with false.
  destruct (net (fetches t) url options) as [response | e].
  - destruct (ok response).
    + destruct (json response) as [e | b]; simpl;
        eexists; exists [EvFetch url options]; repeat split.
    + rewrite andb_false_r. eexists.
      exists [EvFetch url options; EvLog (errorBody response)]. repeat split.
  - eexists. exists [EvFetch url options]. repeat split.
Qed.

(** C9: for every [retries >= 0] and every network the call returns (the
    function is total) and issues at least one and at most [retries + 1]
    requests. *)
Theorem fetchWithBackoff_bounded_attempts url options retries delay t :
  0 <= retries ->
  exists result t',
    fwb url options retries delay t = (result, t') /\
    Z.of_nat (fetches t) < Z.of_nat (fetches t') /\
    Z.of_nat (fetches t') <= Z.of_nat (fetches t) + retries + 1.
Proof.
  intros Hnonneg.
  destruct (fetchWithBackoff_trace url options retries delay t)
    as (evs & Htrace & _ & Hcount).
  destruct (fwb url options retries delay t) as [result t'] eqn:Hrun.
  simpl in Htrace. subst t'. exists result, (t ++ evs).
  rewrite fetches_app. repeat split; lia.
Qed.

(** C10: when a 2xx response has a body that is not JSON, the call fails
    with the rejection of [response.json()] after that single request,
    however many retries remain: the promise is returned from the [try]
    block without [await], so the [catch] block never sees it. *)
Theorem body_parse_failure_not_retried url options retries delay t response e :
  net (fetches t) url options = Resolves response ->
  ok response = true ->
  json response = inl e ->
  fwb url options retries delay t = (Throw e, t ++ [EvFetch url options]).
Proof.
  intros Hnet Hok Hjson.
  now rewrite fetchWithBackoff_attempt, Hnet, Hok, Hjson.
Qed.

(** C4, amended: a failed response that is not retried (no retry is left)
    raises "API Error: <status> <text>" after one request.  The text is
    the status text when the body is not JSON (the parse failure is not
    raised) or when its nested [error.message] is absent or falsy (the
    empty string, [null], 0, [false]); it is that nested message when the
    message is truthy and has a string form, as every non-empty string
    has. *)
Theorem api_error_message url options retries delay t response :
  net (fetches t) url options = Resolves response ->
  ok response = false ->
  retries <= 0 ->
  let raised text :=
    (Throw (Error ("API Error: " ++ decimal (status response) ++ " " ++ text)),
     t ++ [EvFetch url options; EvLog (errorBody response)]) in
  (forall e, json response = inl e ->
     fwb url options retries delay t = raised (statusText response)) /\
  (forall b, json response = inr b ->
     truthy ((Some b)?."error"?."message") = false ->
     fwb url options retries delay t = raised (statusText response)) /\
  (forall b text, json response = inr b ->
     truthy ((Some b)?."error"?."message") = true ->
     ToString_value Number_toString ((Some b)?."error"?."message") = Normal text ->
     fwb url options retries delay t = raised text) /\
  (forall b text, json response = inr b ->
     (Some b)?."error"?."message" = Some (JStr text) ->
     text <> "" ->
     fwb url options retries delay t = raised text).
Proof.
  intros Hnet Hok Hlast raised.
  rewrite (fetchWithBackoff_error_last _ _ _ _ _ _ Hnet Hok Hlast).
  unfold raised, api_error, detailedMessage, or_else.
  repeat split.
  - now intros e ->.
  - intros b -> Hfalsy. now rewrite Hfalsy.
  - intros b text -> Htruthy Htext. now rewrite Htruthy, Htext.
  - intros b text -> Htext Hnonempty. rewrite Htext. simpl.
    apply String.eqb_neq in Hnonempty. now rewrite Hnonempty.
Qed.

(** A truthy nested message without a string form (an object with an own
    "toString" property) makes the template literal of line 91 raise its
    TypeError instead. *)
Lemma api_error_unconvertible url options retries delay t response b e :
  net (fetches t) url options = Resolves response ->
  ok response = false ->
  retries <= 0 ->
  json response = inr b ->
  truthy ((Some b)?."error"?."message") = true ->
  ToString_value Number_toString ((Some b)?."error"?."message") = Throw e ->
  fwb url options retries delay t =
  (Throw e, t ++ [EvFetch url options; EvLog (errorBody response)]).
Proof.
  intros Hnet Hok Hlast Hjson Htruthy Htext.
  rewrite (fetchWithBackoff_error_last _ _ _ _ _ _ Hnet Hok Hlast).
  unfold api_error, detailedMessage, or_else.
  now rewrite Hjson, Htruthy, Htext.
Qed.

End Backoff.

(** ** The two phases of [fetchGroundedJson] *)

Section Retrieval.

Variable net : Network.
Variable JSON_parse : string -> string + Js.json.
Variable JSON_stringify : Js.json -> string.
Variable Number_toString : Q -> string.

Local Notation "'retrieve'" :=
  (fetchGroundedJson net JSON_parse JSON_stringify Number_toString).

(** The phase-1 call, from the trace [t] at which the retrieval starts. *)
Local Notation "'phase1' apiKey textPrompt t" :=
  (fetchWithBackoff net Number_toString (apiUrl apiKey)
     (post JSON_stringify (searchPayload textPrompt)) 3 1000
     (t ++ [EvLoading loading1]))
  (at level 10, apiKey at level 9, textPrompt at level 9, t at level 9).

(** The phase-2 call with the prompt [prompt], from the trace [t1] at
    which phase 1 returned. *)
Local Notation "'phase2' apiKey prompt jsonSchema t1" :=
  (fetchWithBackoff net Number_toString (apiUrl apiKey)
     (post JSON_stringify (jsonPayload prompt jsonSchema))
     3 1000 (t1 ++ [EvLoading loading2]))
  (at level 10, apiKey at level 9, prompt at level 9,
   jsonSchema at level 9, t1 at level 9).

(** The two requests, written out. *)
Local Notation "'endpoint' apiKey" :=
  ("https://generativelanguage.googleapis.com/v1beta/models/gemini-2.5-flash-preview-09-2025:generateContent?key="
     ++ apiKey)%string
  (at level 10, apiKey at level 9).

Local Notation "'posting' payload" :=
  {| method := "POST";
     headers := [("Content-Type", "application/json")];
     body := JSON_stringify payload |}
  (at level 10, payload at level 9).

Local Notation "'grounded_search' textPrompt" :=
  (JObj [("contents", JArr [JObj [("parts", JArr [JObj [("text", JStr textPrompt)]])]]);
         ("tools", JArr [JObj [("google_search", JObj [])]])])
  (at level 10, textPrompt at level 9).

Local Notation "'structuring' grounded jsonSchema" :=
  (JObj [("contents",
          JArr [JObj [("parts", JArr [JObj [("text", JStr ("
    Parse the following market analysis text and convert it into a valid JSON object matching the provided schema.

    TEXT TO PARSE:
    ---
    " ++ grounded ++ "
    ---

    Respond ONLY with the valid JSON object.
  ")%string)]])]]);
         ("generationConfig",
          JObj [("responseMimeType", JStr "application/json");
                ("responseSchema", jsonSchema)])])
  (at level 10, grounded at level 9, jsonSchema at level 9).

Lemma first_text_value data t :
  data <> JNull -> first_text data t = (Normal (text_of data), t).
Proof. destruct data; [congruence | reflexivity ..]. Qed.

Lemma first_text_cases data t :
  (data = JNull /\
   first_text data t =
   (Throw (TypeError "Cannot read properties of null (reading 'candidates')"), t))
  \/ (data <> JNull /\ first_text data t = (Normal (text_of data), t)).
Proof. destruct data; [left | right ..]; split; try reflexivity; discriminate. Qed.

Lemma text_of_null_body data : truthy (text_of data) = true -> data <> JNull.
Proof. now intros Htext ->. Qed.

(** The retrieval, phase by phase. *)
Lemma fetchGroundedJson_phases apiKey textPrompt jsonSchema t :
  retrieve apiKey textPrompt jsonSchema t =
  match phase1 apiKey textPrompt t with
  | (Throw e, t1) => (Throw e, t1)
  | (Normal searchData, t1) =>
      match first_text searchData t1 with
      | (Throw e, _) => (Throw e, t1)
      | (Normal groundedText, _) =>
          if truthy groundedText then
            match parseJsonPrompt Number_toString groundedText with
            | Throw e => (Throw e, t1 ++ [EvLoading loading2])
            | Normal prompt =>
                match phase2 apiKey prompt jsonSchema t1 with
                | (Throw e, t2) => (Throw e, t2)
                | (Normal jsonData, t2) =>
                    match first_text jsonData t2 with
                    | (Throw e, _) => (Throw e, t2)
                    | (Normal jsonText, _) =>
                        if truthy jsonText
                        then parse JSON_parse Number_toString jsonText t2
                        else (Throw step2_failed, t2)
                    end
                end
            end
          else (Throw step1_failed, t1)
      end
  end.
Proof.
  unfold fetchGroundedJson, bind, setLoadingMessage, emit, evaluate.
  destruct (phase1 apiKey textPrompt t) as [[searchData | e] t1];
    [| reflexivity].
  destruct searchData; try reflexivity;
    unfold first_text, property, bind, ret, throw;
    match goal with
    | |- context [truthy ?g] =>
        destruct (truthy g); cbn [negb]; cbv beta iota; [| reflexivity];
        destruct (parseJsonPrompt Number_toString g) as [prompt | e];
          cbv beta iota; [| reflexivity]
    end;
    match goal with
    | |- context [fetchWithBackoff ?n ?s ?u ?o ?r ?d ?t0] =>
        destruct (fetchWithBackoff n s u o r d t0) as [[jsonData | e] t2];
          [| reflexivity]
    end;
    destruct jsonData; try reflexivity;
    match goal with
    | |- context [truthy ?g] => destruct (truthy g); reflexivity
    end.
Qed.

Lemma phase_trace url options t t' result :
  fetchWithBackoff net Number_toString url options 3 1000 t = (result, t') ->
  exists evs,
    t' = t ++ evs /\ requests_only url options evs /\ (1 <= fetches evs)%nat.
Proof.
  intros Hrun.
  destruct (fetchWithBackoff_trace net Number_toString url options 3 1000 t)
    as (evs & Htrace & Hreq & Hcount).
  rewrite Hrun in Htrace. exists evs. repeat split; [exact Htrace | exact Hreq | lia].
Qed.


(** Phase 1 returned a body other than [null] without a usable text:
    "Step 1 Failed", and the trace ends where phase 1 ended, so no
    phase-2 request is issued. *)
Lemma step1_failure apiKey textPrompt jsonSchema t searchData t1 :
  phase1 apiKey textPrompt t = (Normal searchData, t1) ->
  searchData <> JNull ->
  truthy (text_of searchData) = false ->
  retrieve apiKey textPrompt jsonSchema t = (Throw step1_failed, t1) /\
  exists ev1,
    t1 = t ++ EvLoading loading1 :: ev1 /\
    requests_only (apiUrl apiKey)
      (post JSON_stringify (searchPayload textPrompt)) ev1.
Proof.
  intros Hphase1 Hnull Htext. split.
  - rewrite fetchGroundedJson_phases, Hphase1.
    rewrite (first_text_value _ _ Hnull). now rewrite Htext.
  - destruct (phase_trace _ _ _ _ _ Hphase1) as (ev1 & -> & Hreq & _).
    exists ev1. now rewrite <- app_assoc.
Qed.

Lemma ToString_string (s : string) :
  ToString_value Number_toString (Some (JStr s)) = Normal s.
Proof. reflexivity. Qed.

(** C6, amended: after a successful phase 1, for a phase-2 body other
    than [null]: when its text part is absent or falsy (the empty string
    included) the retrieval fails with "Step 2 Failed"; when it is truthy
    and not JSON the retrieval fails with the SyntaxError of JSON.parse,
    which is not the "Step 2 Failed" error.  Either way the trace ends
    where phase 2 ended: nothing is repaired or retried. *)
Theorem phase2_failures
    apiKey textPrompt jsonSchema t searchData t1 prompt jsonData t2 :
  phase1 apiKey textPrompt t = (Normal searchData, t1) ->
  truthy (text_of searchData) = true ->
  parseJsonPrompt Number_toString (text_of searchData) = Normal prompt ->
  phase2 apiKey prompt jsonSchema t1 = (Normal jsonData, t2) ->
  jsonData <> JNull ->
  (truthy (text_of jsonData) = false ->
   retrieve apiKey textPrompt jsonSchema t = (Throw step2_failed, t2)) /\
  (truthy (text_of jsonData) = true ->
   forall source msg,
     ToString_value Number_toString (text_of jsonData) = Normal source ->
     JSON_parse source = inl msg ->
     retrieve apiKey textPrompt jsonSchema t = (Throw (SyntaxError msg), t2) /\
     SyntaxError msg <> step2_failed).
Proof.
  intros Hphase1 Hgrounded Hprompt Hphase2 Hnull.
  rewrite fetchGroundedJson_phases, Hphase1.
  rewrite (first_text_value _ _ (text_of_null_body _ Hgrounded)), Hgrounded.
  rewrite Hprompt, Hphase2, (first_text_value _ _ Hnull).
  split; intros Htext; rewrite Htext; [reflexivity |].
  intros source msg Hsource Hparse.
  unfold parse, bind, evaluate. rewrite Hsource, Hparse.
  split; [reflexivity | discriminate].
Qed.

(** C7: when the text part of the phase-2 body is well-formed JSON text,
    the retrieval returns the very value that JSON.parse gives for that
    text.  (No JSON text is empty.) *)
Theorem structured_result_is_parsed_text
    apiKey textPrompt jsonSchema t searchData t1 prompt jsonData t2 text parsed :
  (forall v, JSON_parse "" <> inr v) ->
  phase1 apiKey textPrompt t = (Normal searchData, t1) ->
  truthy (text_of searchData) = true ->
  parseJsonPrompt Number_toString (text_of searchData) = Normal prompt ->
  phase2 apiKey prompt jsonSchema t1 = (Normal jsonData, t2) ->
  text_of jsonData = Some (JStr text) ->
  JSON_parse text = inr parsed ->
  retrieve apiKey textPrompt jsonSchema t = (Normal parsed, t2).
Proof.
  intros Hempty Hphase1 Hgrounded Hprompt Hphase2 Htext Hparse.
  assert (Htruthy : truthy (text_of jsonData) = true).
  { rewrite Htext. simpl. destruct (String.eqb_spec text ""); [| reflexivity].
    subst text. now destruct (Hempty parsed). }
  rewrite fetchGroundedJson_phases, Hphase1.
  rewrite (first_text_value _ _ (text_of_null_body _ Hgrounded)), Hgrounded.
  rewrite Hprompt, Hphase2, (first_text_value _ _ (text_of_null_body _ Htruthy)).
  rewrite Htruthy. unfold parse, bind, evaluate.
  now rewrite Htext, ToString_string, Hparse.
Qed.



End Retrieval.

(** ** Concrete runs *)

Section Runs.

Import Sample.

(** C1: a failed response other than 429 is not terminal while retries
    remain.  With the default [retries = 3] and [delay = 1000], a server
    that answers 500 to every request is asked four times, with waits of
    1000, 2000 and 4000 ms, before the API error reaches the caller; and
    when the second answer is a 200 the call returns its body and the 500
    is never raised. *)
Theorem server_error_is_retried :
  fst (run_backoff (always server_error) 3 1000)
    = Throw (Error "API Error: 500 backend down") /\
  fetches (snd (run_backoff (always server_error) 3 1000)) = 4%nat /\
  sleeps (snd (run_backoff (always server_error) 3 1000)) = [1000; 2000; 4000] /\
  fst (run_backoff (scripted server_error [grounded]) 3 1000)
    = Normal (candidates_body (JStr "Three personas: A, B, C.")) /\
  fetches (snd (run_backoff (scripted server_error [grounded]) 3 1000)) = 2%nat.
Proof. repeat split; vm_compute; reflexivity. Qed.

Lemma throttled_backoff_witness :
  0 < 2 /\
  exists last evs,
    run_backoff (always throttled) 2 1000
      = (Throw (api_error Number_toString last), evs) /\
    status last = 429 /\
    fetches evs = 3%nat /\
    sleeps evs = [1000; 2000].
Proof.
  split; [lia |].
  destruct (throttled_backoff (always throttled) Number_toString
              url options 2 1000 [])
    as (first & last & evs & _ & _ & H429 & _ & Hrun & _ & Hfetches & Hsleeps).
  - lia.
  - intros i _. eexists. split; reflexivity.
  - exists last, evs. repeat split; assumption.
Defined.

Lemma fetchWithBackoff_bounded_attempts_witness :
  0 <= 3 /\
  exists result t',
    run_backoff (always server_error) 3 1000 = (result, t') /\
    Z.of_nat (fetches []) < Z.of_nat (fetches t') /\
    Z.of_nat (fetches t') <= Z.of_nat (fetches []) + 3 + 1.
Proof.
  split; [lia |].
  apply (fetchWithBackoff_bounded_attempts (always server_error)
           Number_toString url options 3 1000 []).
  lia.
Defined.

Lemma body_parse_failure_not_retried_witness :
  run_backoff (always html_200) 3 1000
    = (Throw (SyntaxError "Unexpected token < in JSON at position 0"),
       [EvFetch url options]).
Proof.
  apply (body_parse_failure_not_retried (always html_200) Number_toString
           url options 3 1000 [] (mkResponse 200 "OK" not_json));
    reflexivity.
Defined.

(** C4 as stated fails: the body [{ error: { message: "" } }] is JSON
    with a nested [error.message], and the error carries the status text,
    not that message. *)
Lemma empty_nested_message_not_used :
  (Some (error_body (JStr "")))?."error"?."message" = Some (JStr "") /\
  fst (run_backoff (always empty_message) 0 1000)
    = Throw (Error "API Error: 500 Internal Server Error") /\
  fst (run_backoff (always empty_message) 0 1000)
    <> Throw (Error ("API Error: 500 " ++ "")).
Proof. repeat split; vm_compute; first [reflexivity | discriminate]. Qed.

Lemma api_error_message_witness :
  run_backoff (always plain_500) 0 1000
    = (Throw (Error ("API Error: " ++ decimal 500 ++ " "
                       ++ "Internal Server Error")),
       [] ++ [EvFetch url options; EvLog JNull]).
Proof.
  destruct (api_error_message (always plain_500) Number_toString
              url options 0 1000 []
              (mkResponse 500 "Internal Server Error" not_json))
    as (Hfallback & _).
  - reflexivity.
  - reflexivity.
  - lia.
  - exact (Hfallback _ eq_refl).
Defined.

(** C5: a phase-1 answer 200 whose body is [null] has no text part, and
    the retrieval fails with a TypeError, not with "Step 1 Failed"; it
    issues no phase-2 request. *)
Theorem null_body_type_error :
  text_of JNull = None /\
  fst (run_retrieve (always null_200))
    = Throw (TypeError "Cannot read properties of null (reading 'candidates')") /\
  fst (run_retrieve (always null_200)) <> Throw step1_failed /\
  fetches (snd (run_retrieve (always null_200))) = 1%nat.
Proof. repeat split; vm_compute; first [reflexivity | discriminate]. Qed.

(** C6 as stated fails: a phase-2 text part that is present and empty is
    not JSON, and the retrieval fails with "Step 2 Failed", not with a
    parse error. *)
Lemma empty_text_step2_failed :
  text_of (candidates_body (JStr "")) = Some (JStr "") /\
  JSON_parse "" = inl "Unexpected end of JSON input" /\
  fst (run_retrieve (scripted grounded [structured ""])) = Throw step2_failed /\
  fst (run_retrieve (scripted grounded [structured ""]))
    <> Throw (SyntaxError "Unexpected end of JSON input").
Proof. repeat split; vm_compute; first [reflexivity | discriminate]. Qed.

Lemma phase2_failures_witness :
  fst (run_retrieve (scripted grounded [structured "oops"]))
    = Throw (SyntaxError "Unexpected token").
Proof.
  edestruct (phase2_failures (scripted grounded [structured "oops"])
               JSON_parse JSON_stringify Number_toString
               "KEY" "Generate 3 personas" (JObj []) [])
    as [_ Hparse].
  - vm_compute. reflexivity.
  - reflexivity.
  - reflexivity.
  - vm_compute. reflexivity.
  - discriminate.
  - destruct (Hparse eq_refl "oops" "Unexpected token" eq_refl eq_refl)
      as [Hrun _].
    unfold run_retrieve. now rewrite Hrun.
Defined.

Lemma structured_result_is_parsed_text_witness :
  fst (run_retrieve (scripted grounded [structured "{}"])) = Normal (JObj []).
Proof.
  unfold run_retrieve.
  erewrite (structured_result_is_parsed_text
              (scripted grounded [structured "{}"])
              JSON_parse JSON_stringify Number_toString
              "KEY" "Generate 3 personas" (JObj []) []).
  - reflexivity.
  - discriminate.
  - vm_compute. reflexivity.
  - reflexivity.
  - reflexivity.
  - vm_compute. reflexivity.
  - reflexivity.
  - reflexivity.
Defined.



(** The scenario of a throttled phase 1: 429 once, then the grounded
    text, then the structured answer.  Three requests, one wait. *)
Example throttled_once_then_grounded :
  fst (run_retrieve (scripted throttled [grounded; structured "{}"]))
    = Normal (JObj []) /\
  fetches (snd (run_retrieve (scripted throttled [grounded; structured "{}"])))
    = 3%nat /\
  sleeps (snd (run_retrieve (scripted throttled [grounded; structured "{}"])))
    = [1000].
Proof. repeat split; vm_compute; reflexivity. Qed.

End Runs.

(** ** More on the retry policy *)

Section BackoffRuns.

Variable net : Network.
Variable Number_toString : Q -> string.

Local Notation "'fwb'" := (fetchWithBackoff net Number_toString).

Lemma backoff_delays_succ delay n :
  backoff_delays delay (S n) = delay :: backoff_delays (delay * 2) n.
Proof.
  unfold backoff_delays. cbn [seq map]. rewrite <- seq_shift, map_map.
  f_equal; [simpl; lia |].
  apply map_ext. intros i. rewrite Nat2Z.inj_succ, Z.pow_succ_r; lia.
Qed.

Lemma gtb_pos retries : 0 < retries -> (retries >? 0) = true.
Proof. intros H. now apply Z.gtb_lt. Qed.

Lemma gtb_nonpos retries : retries <= 0 -> (retries >? 0) = false.
Proof. intros H. apply not_true_is_false. rewrite Z.gtb_lt. lia. Qed.

(** The attempt that ends a call: the request is not failed, or no retry
    is left. *)
Lemma fetchWithBackoff_last_attempt url options retries delay t :
  retries <= 0 \/ failed (net (fetches t) url options) = false ->
  exists evs,
    fwb url options retries delay t =
      (settle Number_toString (net (fetches t) url options), t ++ evs) /\
    fetches evs = 1%nat /\ sleeps evs = [].
Proof.
  intros Hlast. rewrite fetchWithBackoff_attempt. unfold settle, failed in *.
  destruct (net (fetches t) url options) as [response | e].
  - destruct (ok response) eqn:Hok.
    + exists [EvFetch url options].
      destruct (json response); repeat split.
    + destruct Hlast as [Hlast | Hfailed]; [| discriminate].
      rewrite (gtb_nonpos _ Hlast), andb_false_r.
      exists [EvFetch url options; EvLog (errorBody response)]. repeat split.
  - destruct Hlast as [Hlast | Hfailed]; [| discriminate].
    rewrite (gtb_nonpos _ Hlast). exists [EvFetch url options]. repeat split.
Qed.

(** A failed attempt with a retry left: one request, one wait of
    [delay], and the call with [retries - 1] and [delay * 2]. *)
Lemma fetchWithBackoff_failed_attempt url options retries delay t :
  0 < retries -> failed (net (fetches t) url options) = true ->
  exists pre,
    fwb url options retries delay t =
      fwb url options (retries - 1) (delay * 2) (t ++ pre) /\
    fetches pre = 1%nat /\ sleeps pre = [delay].
Proof.
  intros Hpos Hfailed. rewrite fetchWithBackoff_attempt. unfold failed in *.
  rewrite (gtb_pos _ Hpos).
  destruct (net (fetches t) url options) as [response | e].
  - apply negb_true_iff in Hfailed. rewrite Hfailed, andb_true_r.
    destruct (status response =? 429).
    + exists [EvFetch url options; EvSleep delay]. repeat split.
    + exists [EvFetch url options; EvLog (errorBody response); EvSleep delay].
      repeat split.
  - exists [EvFetch url options; EvSleep delay]. repeat split.
Qed.

(** X1: a call stops at the first request that does not fail, or when the
    retries are used up, whatever the failures are (rejected requests,
    429, any other status).  If the first [k] requests fail, with
    [k <= retries], and the next one does not fail or [k = retries], the
    call makes exactly [k + 1] requests, waits
    [delay, 2 delay, ..., 2^(k-1) delay] between them, and settles to
    what the last request gives. *)
Theorem stops_at_first_success_or_exhaustion url options retries k :
  forall delay t,
  (k <= Z.to_nat retries)%nat ->
  (forall i, (i < k)%nat ->
     failed (net (fetches t + i)%nat url options) = true) ->
  k = Z.to_nat retries \/
    failed (net (fetches t + k)%nat url options) = false ->
  exists evs,
    fwb url options retries delay t =
      (settle Number_toString (net (fetches t + k)%nat url options), t ++ evs) /\
    fetches evs = S k /\
    sleeps evs = backoff_delays delay k.
Proof.
  revert retries.
  induction k as [| k IH]; intros retries delay t Hk Hfail Hlast.
  - rewrite Nat.add_0_r in *.
    destruct (fetchWithBackoff_last_attempt url options retries delay t)
      as (evs & Hrun & Hcount & Hsleeps).
    { destruct Hlast as [Hzero | Hok]; [left; lia | now right]. }
    exists evs. now rewrite Hrun, Hcount, Hsleeps.
  - assert (Hpos : 0 < retries) by lia.
    destruct (fetchWithBackoff_failed_attempt url options retries delay t Hpos)
      as (pre & Hstep & Hcount & Hsleeps).
    { specialize (Hfail 0%nat). rewrite Nat.add_0_r in Hfail. apply Hfail. lia. }
    assert (Hnext : (fetches (t ++ pre) = fetches t + 1)%nat)
      by now rewrite fetches_app, Hcount.
    destruct (IH (retries - 1) (delay * 2) (t ++ pre))
      as (evs & Hrun & Hcount' & Hsleeps').
    + lia.
    + intros i Hi. rewrite Hnext.
      replace (fetches t + 1 + i)%nat with (fetches t + S i)%nat by lia.
      apply Hfail. lia.
    + rewrite Hnext.
      replace (fetches t + 1 + k)%nat with (fetches t + S k)%nat by lia.
      destruct Hlast as [Hall | Hok]; [left; lia | now right].
    + exists (pre ++ evs). rewrite Hstep, Hrun, Hnext, app_assoc.
      replace (fetches t + 1 + k)%nat with (fetches t + S k)%nat by lia.
      split; [reflexivity |]. split.
      * rewrite fetches_app. lia.
      * now rewrite sleeps_app, Hsleeps, Hsleeps', backoff_delays_succ.
Qed.

(** X2: whatever the network does, the caller gets what the last request
    of the call settled to: the body of a 2xx response, the rejection of
    its [json()], the API error of a failed response, or the rejection of
    the request itself. *)
Theorem settles_to_last_request url options retries :
  forall delay t,
  let run := fwb url options retries delay t in
  fst run =
  settle Number_toString (net (fetches (snd run) - 1)%nat url options).
Proof.
  induction retries as [retries Hlast | retries Hpos IH] using retries_ind;
    intros delay t; cbv zeta.
  - destruct (fetchWithBackoff_last_attempt url options retries delay t)
      as (evs & -> & Hcount & _); [now left |].
    cbn [fst snd]. rewrite fetches_app, Hcount. f_equal. f_equal. lia.
  - destruct (failed (net (fetches t) url options)) eqn:Hfailed.
    + destruct (fetchWithBackoff_failed_attempt url options retries delay t
                  Hpos Hfailed) as (pre & -> & _ & _).
      apply IH.
    + destruct (fetchWithBackoff_last_attempt url options retries delay t)
        as (evs & -> & Hcount & _); [now right |].
      cbn [fst snd]. rewrite fetches_app, Hcount. f_equal. f_equal. lia.
Qed.

Lemma total_app l1 l2 : total (l1 ++ l2) = total l1 + total l2.
Proof. unfold total. induction l1 as [| x l1 IH]; simpl; lia. Qed.

(** Between two requests of a call there is one wait, and the waits
    double: a call that makes [n + 1] requests waits
    [delay, 2 delay, ..., 2^(n-1) delay]. *)
Lemma fetchWithBackoff_waits url options retries :
  forall delay t,
  exists evs n,
    snd (fwb url options retries delay t) = t ++ evs /\
    fetches evs = S n /\
    (n <= Z.to_nat retries)%nat /\
    sleeps evs = backoff_delays delay n.
Proof.
  induction retries as [retries Hlast | retries Hpos IH] using retries_ind;
    intros delay t.
  - destruct (fetchWithBackoff_last_attempt url options retries delay t)
      as (evs & -> & Hcount & Hsleeps); [now left |].
    exists evs, 0%nat. repeat split; auto. lia.
  - destruct (failed (net (fetches t) url options)) eqn:Hfailed.
    + destruct (fetchWithBackoff_failed_attempt url options retries delay t
                  Hpos Hfailed) as (pre & -> & Hcount & Hsleeps).
      destruct (IH (delay * 2) (t ++ pre)) as (evs & n & -> & Hn & Hle & Hw).
      exists (pre ++ evs), (S n). rewrite app_assoc. split; [reflexivity |].
      rewrite fetches_app, sleeps_app, Hcount, Hn, Hsleeps, Hw.
      rewrite backoff_delays_succ. repeat split. lia.
    + destruct (fetchWithBackoff_last_attempt url options retries delay t)
        as (evs & -> & Hcount & Hsleeps); [now right |].
      exists evs, 0%nat. repeat split; auto. lia.
Qed.

Lemma total_backoff_delays delay n :
  total (backoff_delays delay n) = delay * (2 ^ Z.of_nat n - 1).
Proof.
  revert delay. induction n as [| n IH]; intros delay.
  - simpl. lia.
  - rewrite backoff_delays_succ. cbn [total fold_right].
    fold (total (backoff_delays (delay * 2) n)).
    rewrite IH, Nat2Z.inj_succ, Z.pow_succ_r; lia.
Qed.

(** X3: the time a call spends waiting is bounded: with a delay that is
    not negative, the waits of a call add up to at most
    [delay * (2 ^ retries - 1)] (7000 ms for the defaults). *)
Theorem total_wait_bounded url options retries delay t :
  0 <= retries -> 0 <= delay ->
  exists evs,
    snd (fwb url options retries delay t) = t ++ evs /\
    0 <= total (sleeps evs) <= delay * (2 ^ retries - 1).
Proof.
  intros Hretries Hdelay.
  destruct (fetchWithBackoff_waits url options retries delay t)
    as (evs & n & Htrace & _ & Hn & Hsleeps).
  exists evs. split; [exact Htrace |].
  rewrite Hsleeps, total_backoff_delays.
  assert (Hpow : 1 <= 2 ^ Z.of_nat n <= 2 ^ retries).
  { split; [pose proof (Z.pow_pos_nonneg 2 (Z.of_nat n)); lia |].
    apply Z.pow_le_mono_r; lia. }
  nia.
Qed.

End BackoffRuns.

(** ** More on the two phases *)

Section RetrievalRuns.

Variable net : Network.
Variable JSON_parse : string -> string + Js.json.
Variable JSON_stringify : Js.json -> string.
Variable Number_toString : Q -> string.

Local Notation "'fwb'" := (fetchWithBackoff net Number_toString).

Local Notation "'retrieve'" :=
  (fetchGroundedJson net JSON_parse JSON_stringify Number_toString).

Local Notation "'search' textPrompt" :=
  (post JSON_stringify (searchPayload textPrompt))
  (at level 10, textPrompt at level 9).

Local Notation "'reparse' prompt jsonSchema" :=
  (post JSON_stringify (jsonPayload prompt jsonSchema))
  (at level 10, prompt at level 9, jsonSchema at level 9).

Lemma fetchWithBackoff_events url options retries :
  forall delay t,
  exists evs,
    snd (fwb url options retries delay t) = t ++ evs /\
    Forall (backoff_event url options) evs.
Proof.
  induction retries as [retries Hlast | retries Hpos IH] using retries_ind;
    intros delay t; rewrite fetchWithBackoff_attempt.
  - rewrite (gtb_nonpos _ Hlast).
    destruct (net (fetches t) url options) as [response | e].
    + destruct (ok response).
      * exists [EvFetch url options].
        destruct (json response); simpl; repeat constructor.
      * rewrite andb_false_r.
        exists [EvFetch url options; EvLog (errorBody response)].
        simpl; repeat constructor.
    + exists [EvFetch url options]. simpl; repeat constructor.
  - rewrite (gtb_pos _ Hpos).
    assert (Hshift :
      forall pre, Forall (backoff_event url options) pre ->
        exists evs,
          snd (fwb url options (retries - 1) (delay * 2) (t ++ pre)) = t ++ evs /\
          Forall (backoff_event url options) evs).
    { intros pre Hpre.
      destruct (IH (delay * 2) (t ++ pre)) as (evs & -> & Hevs).
      exists (pre ++ evs). rewrite app_assoc. split; [reflexivity |].
      now apply Forall_app. }
    destruct (net (fetches t) url options) as [response | e].
    + destruct (ok response).
      * exists [EvFetch url options].
        destruct (json response); simpl; repeat constructor.
      * rewrite andb_true_r.
        destruct (status response =? 429); apply Hshift;
          simpl; repeat constructor.
    + apply Hshift. simpl; repeat constructor.
Qed.

(** What a call with the defaults [retries = 3], [delay = 1000] adds to
    the trace. *)
Lemma default_call url options t :
  exists evs,
    snd (fwb url options 3 1000 t) = t ++ evs /\
    Forall (backoff_event url options) evs /\
    (1 <= fetches evs <= 4)%nat /\
    0 <= total (sleeps evs) <= 7000.
Proof.
  destruct (fetchWithBackoff_events url options 3 1000 t) as (evs & Htrace & Hevs).
  destruct (fetchWithBackoff_trace net Number_toString url options 3 1000 t)
    as (evs1 & Htrace1 & _ & Hcount).
  destruct (total_wait_bounded net Number_toString url options 3 1000 t)
    as (evs2 & Htrace2 & Hwait); [lia | lia |].
  rewrite Htrace in Htrace1, Htrace2.
  apply app_inv_head in Htrace1, Htrace2. subst evs1 evs2.
  exists evs. repeat split; try assumption; simpl in *; lia.
Qed.

Lemma backoff_event_no_loading url options evs msg :
  Forall (backoff_event url options) evs -> ~ In (EvLoading msg) evs.
Proof.
  intros Hevs Hin. rewrite Forall_forall in Hevs. exact (Hevs _ Hin).
Qed.

Lemma backoff_event_retrieval apiKey payload evs :
  Forall (backoff_event (apiUrl apiKey) (post JSON_stringify payload)) evs ->
  Forall (retrieval_event JSON_stringify apiKey) evs.
Proof.
  apply Forall_impl. intros [url options | d | b | msg]; simpl; auto.
  intros [-> ->]. split; [reflexivity | now exists payload].
Qed.

(** X4: when phase 1 fails, the retrieval fails with the same error and
    stops there: the "Step 2/2" progress message is not signalled and
    every request made is the grounded-search request. *)
Theorem phase1_failure_aborts apiKey textPrompt jsonSchema t e t1 :
  fwb (apiUrl apiKey) (search textPrompt) 3 1000 (t ++ [EvLoading loading1])
    = (Throw e, t1) ->
  retrieve apiKey textPrompt jsonSchema t = (Throw e, t1) /\
  exists ev1,
    t1 = t ++ EvLoading loading1 :: ev1 /\
    requests_only (apiUrl apiKey) (search textPrompt) ev1 /\
    ~ In (EvLoading loading2) ev1.
Proof.
  intros Hphase1. split.
  - now rewrite fetchGroundedJson_phases, Hphase1.
  - destruct (fetchWithBackoff_events (apiUrl apiKey) (search textPrompt)
                3 1000 (t ++ [EvLoading loading1])) as (ev1 & Htrace & Hevs).
    rewrite Hphase1 in Htrace. simpl in Htrace. exists ev1.
    rewrite Htrace, <- app_assoc. split; [reflexivity |]. split.
    + revert Hevs. apply Forall_impl.
      intros [url options | d | b | msg]; simpl; try discriminate.
      now intros [-> ->] _.
    + now apply backoff_event_no_loading with (url := apiUrl apiKey)
                                               (options := search textPrompt).
Qed.

(** When phase 2 fails after a successful phase 1, the retrieval fails
    with the error of phase 2. *)
Lemma phase2_failure_aborts
    apiKey textPrompt jsonSchema t searchData t1 prompt e t2 :
  fwb (apiUrl apiKey) (search textPrompt) 3 1000 (t ++ [EvLoading loading1])
    = (Normal searchData, t1) ->
  truthy (text_of searchData) = true ->
  parseJsonPrompt Number_toString (text_of searchData) = Normal prompt ->
  fwb (apiUrl apiKey) (reparse prompt jsonSchema) 3 1000
    (t1 ++ [EvLoading loading2]) = (Throw e, t2) ->
  retrieve apiKey textPrompt jsonSchema t = (Throw e, t2).
Proof.
  intros Hphase1 Hgrounded Hprompt Hphase2.
  rewrite fetchGroundedJson_phases, Hphase1.
  rewrite (first_text_value _ _ (text_of_null_body _ Hgrounded)), Hgrounded.
  now rewrite Hprompt, Hphase2.
Qed.

(** X6: the budget of a retrieval.  It signals "Step 1/2" before anything
    else, then makes at least one and at most eight requests, each a POST
    of a JSON payload to the generation endpoint with the caller's key,
    and waits at most 14000 ms in all. *)
Theorem retrieval_budget apiKey textPrompt jsonSchema t :
  exists evs,
    snd (retrieve apiKey textPrompt jsonSchema t)
      = t ++ EvLoading loading1 :: evs /\
    (1 <= fetches evs <= 8)%nat /\
    0 <= total (sleeps evs) <= 14000 /\
    Forall (retrieval_event JSON_stringify apiKey) evs.
Proof.
  rewrite fetchGroundedJson_phases.
  destruct (default_call (apiUrl apiKey) (search textPrompt)
              (t ++ [EvLoading loading1]))
    as (ev1 & Htrace1 & Hev1 & Hcount1 & Hwait1).
  apply backoff_event_retrieval in Hev1.
  destruct (fwb (apiUrl apiKey) (search textPrompt) 3 1000
              (t ++ [EvLoading loading1])) as [[searchData | e] t1].
  2: { exists ev1. simpl in *. rewrite Htrace1, <- app_assoc.
       repeat split; try assumption; lia. }
  simpl in Htrace1. subst t1.
  destruct (first_text_cases searchData ((t ++ [EvLoading loading1]) ++ ev1))
    as [[_ ->] | [_ ->]].
  { exists ev1. simpl. rewrite <- app_assoc.
    repeat split; try assumption; lia. }
  destruct (truthy (text_of searchData)).
  2: { exists ev1. simpl. rewrite <- app_assoc.
       repeat split; try assumption; lia. }
  destruct (parseJsonPrompt Number_toString (text_of searchData))
    as [prompt | e].
  2: { exists (ev1 ++ [EvLoading loading2]). simpl. rewrite <- !app_assoc.
       split; [reflexivity |].
       rewrite fetches_app, sleeps_app, total_app.
       change (fetches [EvLoading loading2]) with 0%nat.
       change (total (sleeps [EvLoading loading2])) with 0.
       repeat split; try lia.
       apply Forall_app. split; [assumption | repeat constructor]. }
  destruct (default_call (apiUrl apiKey) (reparse prompt jsonSchema)
              (((t ++ [EvLoading loading1]) ++ ev1) ++ [EvLoading loading2]))
    as (ev2 & Htrace2 & Hev2 & Hcount2 & Hwait2).
  apply backoff_event_retrieval in Hev2.
  assert (Hboth :
    exists evs,
      ((t ++ [EvLoading loading1]) ++ ev1) ++ [EvLoading loading2] ++ ev2
        = t ++ EvLoading loading1 :: evs /\
      (1 <= fetches evs <= 8)%nat /\
      0 <= total (sleeps evs) <= 14000 /\
      Forall (retrieval_event JSON_stringify apiKey) evs).
  { exists (ev1 ++ EvLoading loading2 :: ev2).
    rewrite <- !app_assoc. split; [reflexivity |].
    rewrite fetches_app, sleeps_app, total_app.
    change (fetches (EvLoading loading2 :: ev2)) with (fetches ev2).
    change (sleeps (EvLoading loading2 :: ev2)) with (sleeps ev2).
    repeat split; try lia.
    apply Forall_app. split; [assumption |].
    constructor; [exact I | assumption]. }
  rewrite app_assoc in Hboth.
  destruct (fwb (apiUrl apiKey) (reparse prompt jsonSchema) 3 1000
              (((t ++ [EvLoading loading1]) ++ ev1) ++ [EvLoading loading2]))
    as [[jsonData | e] t2]; simpl in Htrace2; subst t2; [| exact Hboth].
  destruct (first_text_cases jsonData
              ((((t ++ [EvLoading loading1]) ++ ev1) ++ [EvLoading loading2]) ++ ev2))
    as [[_ ->] | [_ ->]]; [exact Hboth |].
  destruct (truthy (text_of jsonData)); [| exact Hboth].
  unfold parse, bind, evaluate.
  destruct (ToString_value Number_toString (text_of jsonData)) as [source | e];
    [| exact Hboth].
  destruct (JSON_parse source); exact Hboth.
Qed.

Lemma failed_settle o :
  failed o = true -> exists e, settle Number_toString o = Throw e.
Proof.
  destruct o as [response | e]; simpl; [| now exists e].
  intros Hfailed. apply negb_true_iff in Hfailed. rewrite Hfailed.
  now eexists.
Qed.

(** X5: no partial result.  When the first answer of phase 1 is a 2xx
    body with a text and all four requests of phase 2 fail, the retrieval
    fails with what the last of them gives, after five requests in all
    and waits of 1000, 2000 and 4000 ms; the grounded text is not
    returned. *)
Theorem phase2_exhausted
    apiKey textPrompt jsonSchema t response searchData prompt :
  net (fetches t) (apiUrl apiKey) (search textPrompt) = Resolves response ->
  ok response = true ->
  json response = inr searchData ->
  truthy (text_of searchData) = true ->
  parseJsonPrompt Number_toString (text_of searchData) = Normal prompt ->
  (forall i, (i <= 3)%nat ->
     failed (net (fetches t + 1 + i)%nat (apiUrl apiKey)
               (reparse prompt jsonSchema)) = true) ->
  exists e evs,
    settle Number_toString
      (net (fetches t + 1 + 3)%nat (apiUrl apiKey)
         (reparse prompt jsonSchema)) = Throw e /\
    retrieve apiKey textPrompt jsonSchema t =
      (Throw e,
       t ++ [EvLoading loading1; EvFetch (apiUrl apiKey) (search textPrompt);
             EvLoading loading2] ++ evs) /\
    fetches evs = 4%nat /\
    sleeps evs = [1000; 2000; 4000].
Proof.
  intros Hnet Hok Hjson Hgrounded Hprompt Hfail.
  destruct (failed_settle _ (Hfail 3%nat (Nat.le_refl _))) as (e & Hlast).
  assert (Hphase1 :
    fwb (apiUrl apiKey) (search textPrompt) 3 1000 (t ++ [EvLoading loading1])
    = (Normal searchData,
       t ++ [EvLoading loading1; EvFetch (apiUrl apiKey) (search textPrompt)])).
  { rewrite fetchWithBackoff_attempt, fetches_app.
    change (fetches [EvLoading loading1]) with 0%nat.
    rewrite Nat.add_0_r, Hnet, Hok, Hjson. simpl. now rewrite <- app_assoc. }
  set (t2 := (t ++ [EvLoading loading1;
                    EvFetch (apiUrl apiKey) (search textPrompt)])
               ++ [EvLoading loading2]).
  assert (Hcount : fetches t2 = (fetches t + 1)%nat).
  { unfold t2. now rewrite !fetches_app. }
  destruct (stops_at_first_success_or_exhaustion net Number_toString
              (apiUrl apiKey) (reparse prompt jsonSchema)
              3 3 1000 t2) as (evs & Hrun & Hfetches & Hsleeps).
  - simpl. lia.
  - intros i Hi. rewrite Hcount. apply Hfail. lia.
  - now left.
  - rewrite Hcount, Hlast in Hrun. exists e, evs.
    split; [exact Hlast |]. split; [| split; [exact Hfetches | exact Hsleeps]].
    rewrite (phase2_failure_aborts _ _ _ _ _ _ _ _ _
               Hphase1 Hgrounded Hprompt Hrun).
    unfold t2. now rewrite <- !app_assoc.
Qed.

End RetrievalRuns.

(** ** Object updates: form inputs and concept ids *)

Section Updates.

Lemma lookup_set_field name v fields :
  lookup name (set_field name v fields) = Some v.
Proof.
  induction fields as [| [k v'] rest IH]; simpl.
  - now rewrite String.eqb_refl.
  - destruct (String.eqb name k) eqn:Hk; simpl.
    + now rewrite String.eqb_refl.
    + now rewrite Hk.
Qed.

Lemma lookup_set_field_other name v fields k :
  k <> name -> lookup k (set_field name v fields) = lookup k fields.
Proof.
  intros Hk. apply String.eqb_neq in Hk.
  induction fields as [| [k' v'] rest IH]; simpl.
  - now rewrite Hk.
  - destruct (String.eqb name k') eqn:Hname; simpl.
    + apply String.eqb_eq in Hname. subst k'. now rewrite Hk.
    + now rewrite IH.
Qed.

Lemma set_field_keys name v fields :
  lookup name fields <> None ->
  map fst (set_field name v fields) = map fst fields.
Proof.
  induction fields as [| [k v'] rest IH]; simpl; [congruence |].
  destruct (String.eqb name k) eqn:Hk; simpl.
  - apply String.eqb_eq in Hk. now subst k.
  - intros Hin. now rewrite IH.
Qed.

Lemma set_field_same name v fields :
  lookup name fields = Some v -> set_field name v fields = fields.
Proof.
  induction fields as [| [k v'] rest IH]; simpl; [discriminate |].
  destruct (String.eqb name k) eqn:Hk.
  - apply String.eqb_eq in Hk. subst k. now intros [= ->].
  - intros Hin. now rewrite IH.
Qed.

(** X7: after [handleInputChange] the changed input reads back as the new
    value, every other input reads as before, and changing an input that
    exists neither adds nor reorders fields. *)
Theorem handleInputChange_reads_back name value prev :
  lookup name (handleInputChange name value prev) = Some (JStr value) /\
  (forall k, k <> name ->
     lookup k (handleInputChange name value prev) = lookup k prev) /\
  (lookup name prev <> None ->
     map fst (handleInputChange name value prev) = map fst prev).
Proof.
  unfold handleInputChange. repeat split.
  - apply lookup_set_field.
  - intros k Hk. now apply lookup_set_field_other.
  - apply set_field_keys.
Qed.

Lemma with_id_identified concept index c :
  with_id concept index = Normal c -> identified concept c.
Proof.
  unfold with_id, identified. intros Hc.
  assert (Hdef :
    c = JObj (set_field "id"
                (or_default (member concept "id")
                   (JNum (inject_Z (Z.of_nat index + 1))))
                (spread concept)))
    by (destruct concept; congruence).
  clear Hc. subst c. eexists. split; [reflexivity |].
  rewrite lookup_set_field. repeat split.
  - unfold or_default. destruct (member concept "id") as [v |] eqn:Hid.
    + destruct (truthy (Some v)) eqn:Hv; [exact Hv |].
      simpl. destruct (Z.of_nat index + 1) eqn:Hz; simpl; try reflexivity; lia.
    + simpl. destruct (Z.of_nat index + 1) eqn:Hz; simpl; try reflexivity; lia.
  - intros Hid. unfold or_default.
    destruct (member concept "id") as [v |]; [now rewrite Hid | discriminate].
  - intros k Hk. now apply lookup_set_field_other.
Qed.

Lemma map_ids_identified concepts :
  forall index cs,
  map_ids concepts index = Normal cs -> Forall2 identified concepts cs.
Proof.
  induction concepts as [| concept rest IH]; intros index cs; simpl.
  - intros [= <-]. constructor.
  - destruct (with_id concept index) as [c | e] eqn:Hc; [| discriminate].
    destruct (map_ids rest (S index)) as [cs' | e] eqn:Hrest; [| discriminate].
    intros [= <-]. constructor.
    + now apply with_id_identified with (index := index).
    + now apply IH with (index := S index).
Qed.

Lemma assign_ids_inv data data' :
  assign_ids data = Normal data' ->
  exists fields concepts cs,
    data = JObj fields /\
    lookup "concepts" fields = Some (JArr concepts) /\
    map_ids concepts 0 = Normal cs /\
    data' = JObj (set_field "concepts" (JArr cs) fields).
Proof.
  unfold assign_ids. destruct data as [| | | | | fields]; try discriminate.
  destruct (lookup "concepts" fields) as [[| | | | concepts |] |] eqn:Hlookup;
    try discriminate.
  destruct (map_ids concepts 0) as [cs | e] eqn:Hmap; [| discriminate].
  intros [= <-]. now exists fields, concepts, cs.
Qed.

(** X8: when the assignment of ids succeeds, the data keeps its other
    fields, and its concepts are the same in number and order, each one
    an object with a truthy [id]: its own when it had a truthy one, and
    its other fields unchanged. *)
Theorem assign_ids_identifies data data' :
  assign_ids data = Normal data' ->
  exists concepts cs,
    member data "concepts" = Some (JArr concepts) /\
    member data' "concepts" = Some (JArr cs) /\
    Forall2 identified concepts cs /\
    (forall k, k <> "concepts" -> member data' k = member data k).
Proof.
  intros Hassign.
  destruct (assign_ids_inv _ _ Hassign)
    as (fields & concepts & cs & -> & Hlookup & Hmap & ->).
  exists concepts, cs. simpl. repeat split.
  - exact Hlookup.
  - apply lookup_set_field.
  - now apply map_ids_identified with (index := 0%nat).
  - intros k Hk. now apply lookup_set_field_other.
Qed.

Lemma with_id_fixed fields index :
  truthy (lookup "id" fields) = true ->
  with_id (JObj fields) index = Normal (JObj fields).
Proof.
  intros Hid. unfold with_id. simpl. unfold or_default.
  destruct (lookup "id" fields) as [v |] eqn:Hlookup; [| discriminate].
  rewrite Hid. now rewrite (set_field_same _ _ _ Hlookup).
Qed.

Lemma map_ids_fixed concepts cs :
  Forall2 identified concepts cs ->
  forall index, map_ids cs index = Normal cs.
Proof.
  induction 1 as [| concept c concepts cs (fields & -> & Hid & _) _ IH];
    intros index; cbn [map_ids]; [reflexivity |].
  now rewrite (with_id_fixed _ _ Hid), IH.
Qed.

(** X9: assigning ids is idempotent: data that went through it is left as
    it is by a second pass. *)
Theorem assign_ids_idempotent data data' :
  assign_ids data = Normal data' -> assign_ids data' = Normal data'.
Proof.
  intros Hassign.
  destruct (assign_ids_inv _ _ Hassign)
    as (fields & concepts & cs & -> & Hlookup & Hmap & ->).
  unfold assign_ids. rewrite lookup_set_field.
  rewrite (map_ids_fixed _ _ (map_ids_identified _ _ _ Hmap)).
  f_equal. f_equal. apply set_field_same, lookup_set_field.
Qed.

Lemma map_ids_sequential concepts :
  forall index,
  Forall (fun c => c <> JNull /\ truthy (member c "id") = false) concepts ->
  exists cs,
    map_ids concepts index = Normal cs /\
    map (fun c => member c "id") cs =
    map (fun i => Some (JNum (inject_Z (Z.of_nat i + 1))))
        (seq index (length concepts)).
Proof.
  induction concepts as [| concept rest IH]; intros index Hall; simpl.
  - now exists [].
  - inversion Hall as [| ? ? [Hnull Hid] Hrest]; subst.
    destruct (IH (S index) Hrest) as (cs & -> & Hids).
    assert (Hc :
      with_id concept index =
      Normal (JObj (set_field "id" (JNum (inject_Z (Z.of_nat index + 1)))
                      (spread concept)))).
    { unfold with_id, or_default.
      destruct (member concept "id") as [v |]; [rewrite Hid |];
        now destruct concept. }
    rewrite Hc. eexists. split; [reflexivity |].
    cbn [map member]. now rewrite lookup_set_field, Hids.
Qed.

(** X10: when the data has a [concepts] array in which no concept is
    [null] and none has a truthy [id], the assignment succeeds and the
    ids are 1, 2, ..., n in the order of the concepts. *)
Theorem assign_ids_sequential fields concepts :
  lookup "concepts" fields = Some (JArr concepts) ->
  Forall (fun c => c <> JNull /\ truthy (member c "id") = false) concepts ->
  exists cs,
    assign_ids (JObj fields)
      = Normal (JObj (set_field "concepts" (JArr cs) fields)) /\
    map (fun c => member c "id") cs =
    map (fun i => Some (JNum (inject_Z (Z.of_nat i + 1))))
        (seq 0 (length concepts)).
Proof.
  intros Hlookup Hall.
  destruct (map_ids_sequential concepts 0 Hall) as (cs & Hmap & Hids).
  exists cs. unfold assign_ids. now rewrite Hlookup, Hmap.
Qed.

End Updates.

(** ** The handlers of the tabs *)

Section TabRuns.

Variable net : Network.
Variable JSON_parse : string -> string + Js.json.
Variable JSON_stringify : Js.json -> string.
Variable Number_toString : Q -> string.

Local Notation "'retrieve'" :=
  (fetchGroundedJson net JSON_parse JSON_stringify Number_toString).

Lemma core_app u v : core (u ++ v) = core u ++ core v.
Proof. apply flat_map_app. Qed.

Lemma core_map_Core evs : core (map Core evs) = evs.
Proof. induction evs as [| e evs IH]; simpl; [| rewrite IH]; reflexivity. Qed.

Lemma core_shown setter fallback c : core (shown setter fallback c) = [].
Proof. now destruct c. Qed.

Lemma skipn_length_app {A} (l l' : list A) : skipn (length l) (l ++ l') = l'.
Proof. induction l as [| x l IH]; [reflexivity | exact IH]. Qed.

(** A computation of the pipeline that extends the trace by [evs] adds
    the same events to the handler's trace. *)
Lemma lift_run {A} (m : M A) u r evs :
  m (core u) = (r, core u ++ evs) -> lift m u = (r, u ++ map Core evs).
Proof. intros Hm. unfold lift. now rewrite Hm, skipn_length_app. Qed.

Lemma lift_setLoadingMessage msg u :
  lift (setLoadingMessage msg) u = (Normal tt, u ++ [Core (EvLoading msg)]).
Proof. now apply lift_run with (evs := [EvLoading msg]). Qed.

(** The shape the three handlers share: state resets, the awaited work,
    what is shown of its completion, the [finally] block. *)
Lemma handler_run (resets : ui_trace) (work : UI Js.json)
    (setter fallback : string) (finals : ui_trace) u c evs
    (finalizer : UI unit) :
  work (u ++ resets) = (c, (u ++ resets) ++ evs) ->
  (forall u', finalizer u' = (Normal tt, u' ++ finals)) ->
  try_catch_finally
    (ui_bind work (fun data => setState setter data))
    (report fallback) finalizer (u ++ resets)
  = (Normal tt,
     u ++ resets ++ evs ++ shown setter fallback c ++ finals).
Proof.
  intros Hwork Hfinal.
  unfold try_catch_finally, report, onError, setState, ui_bind, ui_emit.
  rewrite Hwork.
  destruct c as [v | err]; cbv beta iota zeta; cbn [shown]; rewrite Hfinal;
    now rewrite <- !app_assoc.
Qed.

Lemma key_present apiKey : apiKey <> "" -> String.eqb apiKey "" = false.
Proof. apply String.eqb_neq. Qed.

(** X11: [handleGenerate] with a key: it sets the loading flag and clears
    the result, runs the retrieval, then either stores the structured
    result or logs the error and reports its message (the fallback
    message when the error has an empty one), and in both cases ends by
    clearing the loading flag and the progress message. *)
Theorem handleGenerate_run apiKey inputs u r evs :
  apiKey <> "" ->
  retrieve apiKey (personaPrompt inputs)
    personaArchitectSchema (core u) = (r, core u ++ evs) ->
  handleGenerate net JSON_parse JSON_stringify Number_toString apiKey inputs u
  = (Normal tt,
     u ++ [SetState "setIsLoading" (JBool true); SetState "setResult" JNull]
       ++ map Core evs
       ++ shown "setResult" "Failed to generate personas." r
       ++ [SetState "setIsLoading" (JBool false); Core (EvLoading "")]).
Proof.
  intros Hkey Hrun. unfold handleGenerate. rewrite (key_present _ Hkey).
  unfold ui_bind at 1 2. unfold setState at 1 2. unfold ui_emit at 1 2.
  rewrite <- app_assoc. cbn [app].
  apply (handler_run
           [SetState "setIsLoading" (JBool true); SetState "setResult" JNull]).
  - apply lift_run. rewrite core_app. cbn [core flat_map app].
    now rewrite app_nil_r.
  - intros u'. unfold ui_bind, setState, ui_emit.
    now rewrite lift_setLoadingMessage, <- app_assoc.
Qed.

(** X12: [handleGenerate] never throws.  Without a key it only reports
    that the key is missing.  With a key, the loading flag it sets first
    is cleared last, whatever happens in between, and the requests are at
    most eight, all of them retrieval requests with that key. *)
Theorem handleGenerate_safe apiKey inputs u :
  exists evs,
    handleGenerate net JSON_parse JSON_stringify Number_toString apiKey inputs u
      = (Normal tt, u ++ evs) /\
    (apiKey = "" -> evs = [OnError api_key_missing]) /\
    (apiKey <> "" ->
     exists middle,
       evs = SetState "setIsLoading" (JBool true) :: SetState "setResult" JNull
               :: middle
               ++ [SetState "setIsLoading" (JBool false); Core (EvLoading "")]) /\
    (fetches (core evs) <= 8)%nat /\
    Forall (retrieval_event JSON_stringify apiKey) (core evs).
Proof.
  destruct (String.eqb_spec apiKey "") as [-> | Hkey].
  - exists [OnError api_key_missing]. repeat split; try reflexivity.
    + congruence.
    + unfold fetches. simpl. lia.
    + constructor.
  - destruct (retrieval_budget net JSON_parse JSON_stringify Number_toString
                apiKey (personaPrompt inputs)
                personaArchitectSchema (core u))
      as (evs & Htrace & Hcount & _ & Hreq).
    destruct (retrieve apiKey (personaPrompt inputs)
                personaArchitectSchema (core u)) as [r t'] eqn:Hrun.
    simpl in Htrace. subst t'.
    rewrite (handleGenerate_run apiKey inputs u r _ Hkey Hrun).
    eexists. split; [reflexivity |]. repeat split.
    + congruence.
    + intros _.
      exists (map Core (EvLoading loading1 :: evs)
                ++ shown "setResult" "Failed to generate personas." r).
      now rewrite <- app_assoc.
    + rewrite !core_app, core_map_Core, core_shown. simpl.
      change (fetches (EvLoading loading1 :: evs ++ [EvLoading ""]))
        with (fetches (evs ++ [EvLoading ""])).
      rewrite fetches_app. unfold fetches at 2. simpl. lia.
    + rewrite !core_app, core_map_Core, core_shown. simpl.
      constructor; [exact I |]. apply Forall_app. split; [exact Hreq |].
      repeat constructor.
Qed.

(** X13: [handleGenerateStrategy] with a key: after the resets and the
    retrieval, the structured result is stored with its concept ids
    assigned; when the retrieval fails, or when the result has no array
    of concepts or a [null] concept, the error is logged and reported and
    no result is stored.  The loading flag and the progress message are
    cleared at the end in every case. *)
Theorem handleGenerateStrategy_run apiKey inputs u r evs :
  apiKey <> "" ->
  retrieve apiKey (strategyPrompt inputs) campaignSchema (core u)
    = (r, core u ++ evs) ->
  handleGenerateStrategy net JSON_parse JSON_stringify Number_toString
    apiKey inputs u
  = (Normal tt,
     u ++ [SetState "setIsStrategyLoading" (JBool true);
           SetState "setStrategyResult" JNull;
           SetState "setSelectedConcept" JNull;
           SetState "setGeneratedImages" (JArr [])]
       ++ map Core evs
       ++ shown "setStrategyResult" "Failed to generate strategy."
            (and_then r assign_ids)
       ++ [SetState "setIsStrategyLoading" (JBool false); Core (EvLoading "")]).
Proof.
  intros Hkey Hrun. unfold handleGenerateStrategy. rewrite (key_present _ Hkey).
  unfold ui_bind at 1 2 3 4. unfold setState at 1 2 3 4.
  unfold ui_emit at 1 2 3 4. rewrite <- !app_assoc. cbn [app].
  set (resets := [SetState "setIsStrategyLoading" (JBool true);
                  SetState "setStrategyResult" JNull;
                  SetState "setSelectedConcept" JNull;
                  SetState "setGeneratedImages" (JArr [])]).
  assert (Hlift :
    lift (retrieve apiKey (strategyPrompt inputs) campaignSchema)
      (u ++ resets) = (r, (u ++ resets) ++ map Core evs)).
  { apply lift_run. rewrite core_app. cbn [resets core flat_map app].
    now rewrite app_nil_r. }
  unfold try_catch_finally, complete, report, onError, setState, ui_bind, ui_emit.
  rewrite Hlift.
  destruct r as [data | err]; cbn [and_then shown];
    [destruct (assign_ids data) as [data' | err]; cbn [shown] |];
    rewrite lift_setLoadingMessage; now rewrite <- !app_assoc.
Qed.

Lemma map_images_spec predictions images :
  map_images Number_toString predictions = Normal images ->
  Forall2 (fun pred image =>
             exists bytes,
               ToString_value Number_toString (member pred "bytesBase64Encoded")
                 = Normal bytes /\
               image = ("data:image/png;base64," ++ bytes)%string)
          predictions images.
Proof.
  revert images.
  induction predictions as [| pred rest IH]; intros images; cbn [map_images].
  - intros [= <-]. constructor.
  - destruct (image_of Number_toString pred) as [image | e] eqn:Himage;
      [| discriminate].
    destruct (map_images Number_toString rest) as [images' | e];
      [| discriminate].
    intros [= <-]. constructor; [| now apply IH].
    unfold image_of in Himage.
    destruct (ToString_value Number_toString (member pred "bytesBase64Encoded"))
      as [bytes | e] eqn:Hbytes;
      [exists bytes; destruct pred; split; congruence
      | destruct pred; discriminate].
Qed.

(** X14: the images handed to [setGeneratedImages] are never an empty
    list: they are the data URLs of the predictions of the body, one per
    prediction and in their order, each "data:image/png;base64," followed
    by the string form of the prediction's [bytesBase64Encoded]. *)
Theorem generated_images_spec data shown_images :
  generated_images Number_toString data = Normal shown_images ->
  exists predictions images,
    member data "predictions" = Some (JArr predictions) /\
    predictions <> [] /\
    shown_images = JArr (map JStr images) /\
    Forall2 (fun pred image =>
               exists bytes,
                 ToString_value Number_toString
                   (member pred "bytesBase64Encoded") = Normal bytes /\
                 image = ("data:image/png;base64," ++ bytes)%string)
            predictions images.
Proof.
  unfold generated_images, images_of, and_then.
  destruct data as [| | | | | fields]; cbn [member]; try discriminate.
  destruct (lookup "predictions" fields) as [[| | | | predictions |] |];
    try discriminate.
  destruct (map_images Number_toString predictions) as [images | e] eqn:Hmap;
    [| discriminate].
  apply map_images_spec in Hmap.
  destruct images as [| image rest]; [discriminate |].
  intros [= <-]. exists predictions, (image :: rest).
  repeat match goal with |- _ /\ _ => split end;
    [reflexivity | | reflexivity | exact Hmap].
  intros ->. inversion Hmap.
Qed.

(** A body without predictions, or with [predictions: null] or an empty
    array of predictions, gives the error "No images returned from
    API." *)
Lemma no_predictions_no_images data :
  data <> JNull ->
  member data "predictions" = None \/
  member data "predictions" = Some JNull \/
  member data "predictions" = Some (JArr []) ->
  generated_images Number_toString data = Throw no_images.
Proof.
  intros Hnull Hpred. unfold generated_images, images_of.
  destruct data; try congruence;
    destruct Hpred as [-> | [-> | ->]]; reflexivity.
Qed.

(** X15: [handleGenerateImages] asks for images only with a key and a
    selected concept; otherwise it reports "Please select a concept
    first." and does nothing else.  With both, it sets the loading flag
    and clears the images and builds the prompt; when the concept's
    [title] or [visualIdea] has no string form the handler throws there,
    before its [try]; otherwise it makes one call of the image endpoint,
    stores the images or logs and reports the error, and clears the
    loading flag. *)
Theorem handleGenerateImages_run apiKey inputs selectedConcept u :
  let run :=
    handleGenerateImages net JSON_stringify Number_toString
      apiKey inputs selectedConcept u in
  let guard := String.eqb apiKey "" || negb (truthy (Some selectedConcept)) in
  let resets := [SetState "setIsImageLoading" (JBool true);
                 SetState "setGeneratedImages" (JArr [])] in
  (guard = true -> run = (Normal tt, u ++ [OnError no_concept_selected])) /\
  (guard = false ->
   forall e,
     imagePrompt Number_toString inputs selectedConcept = Throw e ->
     run = (Throw e, u ++ resets)) /\
  (guard = false ->
   forall prompt r evs,
     imagePrompt Number_toString inputs selectedConcept = Normal prompt ->
     fetchWithBackoff net Number_toString (imageUrl apiKey)
       (post JSON_stringify (imagePayload prompt)) 3 1000 (core u)
       = (r, core u ++ evs) ->
     run =
     (Normal tt,
      u ++ resets
        ++ map Core evs
        ++ shown "setGeneratedImages" "Failed to generate images."
             (and_then r (generated_images Number_toString))
        ++ [SetState "setIsImageLoading" (JBool false)])).
Proof.
  cbv zeta. unfold handleGenerateImages.
  destruct (String.eqb apiKey "" || negb (truthy (Some selectedConcept)));
    (split; [| split]); try discriminate; intros _; [reflexivity | |].
  - intros e Hprompt.
    unfold ui_bind, setState, ui_emit, complete. rewrite Hprompt.
    now rewrite <- app_assoc.
  - intros prompt r evs Hprompt Hrun.
    unfold ui_bind at 1 2 3. unfold setState at 1 2. unfold ui_emit at 1 2.
    unfold complete at 1. rewrite Hprompt. rewrite <- !app_assoc. cbn [app].
    set (resets := [SetState "setIsImageLoading" (JBool true);
                    SetState "setGeneratedImages" (JArr [])]).
    match goal with
    | |- context [lift ?m] =>
        assert (Hlift :
          lift m (u ++ resets) = (r, (u ++ resets) ++ map Core evs))
    end.
    { apply lift_run. rewrite core_app. cbn [resets core flat_map app].
      now rewrite app_nil_r. }
    unfold try_catch_finally, complete, report, onError, setState, ui_bind,
      ui_emit, ui_throw.
    rewrite Hlift.
    destruct r as [data | err]; cbn [and_then shown];
      [unfold generated_images;
       destruct (images_of Number_toString data) as [[[| image rest] |] | err];
       cbn [and_then shown] |];
      now rewrite <- !app_assoc.
Qed.

End TabRuns.

(** ** Concrete runs of the retries, the phases and the tabs *)

Section MoreRuns.

Import Sample.
Import Demo.

Lemma stops_at_first_success_or_exhaustion_witness :
  exists evs,
    run_backoff (scripted offline [server_error; grounded]) 3 1000
      = (Normal (candidates_body (JStr "Three personas: A, B, C.")), evs) /\
    fetches evs = 3%nat /\
    sleeps evs = [1000; 2000].
Proof.
  destruct (stops_at_first_success_or_exhaustion
              (scripted offline [server_error; grounded]) Number_toString
              url options 3 2 1000 [])
    as (evs & Hrun & Hcount & Hsleeps).
  - simpl. lia.
  - intros i Hi.
    destruct i as [| [| i]]; [reflexivity | reflexivity | lia].
  - right. reflexivity.
  - exists evs. repeat split; assumption.
Defined.

Lemma total_wait_bounded_witness :
  0 <= 3 /\ 0 <= 1000 /\
  exists evs,
    snd (run_backoff (always server_error) 3 1000) = [] ++ evs /\
    0 <= total (sleeps evs) <= 1000 * (2 ^ 3 - 1).
Proof.
  split; [lia |]. split; [lia |].
  apply (total_wait_bounded (always server_error) Number_toString
           url options 3 1000 []); lia.
Defined.

Lemma phase1_failure_aborts_witness :
  fst (run_retrieve (always plain_500))
    = Throw (Error "API Error: 500 Internal Server Error").
Proof.
  unfold run_retrieve.
  edestruct (phase1_failure_aborts (always plain_500)
               JSON_parse JSON_stringify Number_toString
               "KEY" "Generate 3 personas" (JObj []) [])
    as [Hrun _].
  - vm_compute. reflexivity.
  - now rewrite Hrun.
Defined.

Lemma phase2_exhausted_witness :
  exists evs,
    run_retrieve (scripted grounded [plain_500])
      = (Throw (Error "API Error: 500 Internal Server Error"),
         [] ++ [EvLoading loading1;
                EvFetch (apiUrl "KEY")
                  (post JSON_stringify (searchPayload "Generate 3 personas"));
                EvLoading loading2] ++ evs) /\
    fetches evs = 4%nat /\
    sleeps evs = [1000; 2000; 4000].
Proof.
  edestruct (phase2_exhausted (scripted grounded [plain_500])
               JSON_parse JSON_stringify Number_toString
               "KEY" "Generate 3 personas" (JObj []) []
               (mkResponse 200 "OK"
                  (inr (candidates_body (JStr "Three personas: A, B, C."))))
               (candidates_body (JStr "Three personas: A, B, C.")))
    as (e & evs & Hlast & Hrun & Hcount & Hsleeps);
    try reflexivity.
  - intros i Hi.
    destruct i as [| [| [| [| i]]]]; try reflexivity; lia.
  - vm_compute in Hlast. injection Hlast as <-.
    exists evs. repeat split; assumption.
Defined.

Lemma assign_ids_identifies_witness :
  exists cs,
    assign_ids campaign
      = Normal (JObj [("strategy", JStr "Monsoon launch"); ("concepts", JArr cs)]) /\
    Forall2 identified
      [JObj [("title", JStr "Chai break")];
       JObj [("id", JNum (inject_Z 7)); ("title", JStr "First rain")]] cs.
Proof.
  destruct (assign_ids_identifies campaign
              (JObj [("strategy", JStr "Monsoon launch");
                     ("concepts",
                      JArr [JObj [("title", JStr "Chai break");
                                  ("id", JNum (inject_Z 1))];
                            JObj [("id", JNum (inject_Z 7));
                                  ("title", JStr "First rain")]])]))
    as (concepts & cs & Hconcepts & Hcs & Hids & _).
  - reflexivity.
  - injection Hconcepts as <-. injection Hcs as <-.
    eexists. split; [reflexivity | exact Hids].
Defined.

Lemma assign_ids_idempotent_witness :
  exists data',
    assign_ids campaign = Normal data' /\ assign_ids data' = Normal data'.
Proof.
  eexists. split; [reflexivity |].
  apply (assign_ids_idempotent campaign). reflexivity.
Defined.

Lemma assign_ids_sequential_witness :
  exists cs,
    assign_ids (JObj [("concepts", JArr fresh_concepts)])
      = Normal (JObj [("concepts", JArr cs)]) /\
    map (fun c => member c "id") cs
      = [Some (JNum (inject_Z 1)); Some (JNum (inject_Z 2))].
Proof.
  destruct (assign_ids_sequential
              [("concepts", JArr fresh_concepts)] fresh_concepts)
    as (cs & Hrun & Hids).
  - reflexivity.
  - repeat constructor; discriminate.
  - exists cs. split; [exact Hrun | exact Hids].
Defined.

Lemma handleGenerate_run_witness :
  exists evs,
    handleGenerate (scripted grounded [structured "{}"])
      JSON_parse JSON_stringify Number_toString "KEY" inputs []
    = (Normal tt,
       [] ++ [SetState "setIsLoading" (JBool true); SetState "setResult" JNull]
          ++ map Core evs
          ++ shown "setResult" "Failed to generate personas." (Normal (JObj []))
          ++ [SetState "setIsLoading" (JBool false); Core (EvLoading "")]).
Proof.
  eexists.
  apply (handleGenerate_run (scripted grounded [structured "{}"])
           JSON_parse JSON_stringify Number_toString "KEY" inputs []).
  - discriminate.
  - vm_compute. reflexivity.
Defined.

Lemma handleGenerateStrategy_run_witness :
  exists evs,
    handleGenerateStrategy (scripted grounded [structured "{}"])
      JSON_parse JSON_stringify Number_toString "KEY" inputs []
    = (Normal tt,
       [] ++ [SetState "setIsStrategyLoading" (JBool true);
              SetState "setStrategyResult" JNull;
              SetState "setSelectedConcept" JNull;
              SetState "setGeneratedImages" (JArr [])]
          ++ map Core evs
          ++ shown "setStrategyResult" "Failed to generate strategy."
               (Throw (TypeError
                         "Cannot read properties of undefined (reading 'map')"))
          ++ [SetState "setIsStrategyLoading" (JBool false);
              Core (EvLoading "")]).
Proof.
  eexists.
  apply (handleGenerateStrategy_run (scripted grounded [structured "{}"])
           JSON_parse JSON_stringify Number_toString "KEY" inputs []
           (Normal (JObj []))).
  - discriminate.
  - vm_compute. reflexivity.
Defined.

Lemma generated_images_spec_witness :
  generated_images Number_toString predictions
    = Normal (JArr [JStr "data:image/png;base64,iVBORw0KGgo=";
                    JStr "data:image/png;base64,iVBORw0KGgp="]) /\
  exists preds,
    member predictions "predictions" = Some (JArr preds) /\ preds <> [].
Proof.
  split; [reflexivity |].
  destruct (generated_images_spec Number_toString predictions
              (JArr [JStr "data:image/png;base64,iVBORw0KGgo=";
                     JStr "data:image/png;base64,iVBORw0KGgp="]))
    as (preds & images & Hpreds & Hnonempty & _).
  - reflexivity.
  - now exists preds.
Defined.

Lemma handleGenerateImages_run_witness :
  exists evs,
    handleGenerateImages (always images_200) JSON_stringify Number_toString
      "KEY" inputs concept []
    = (Normal tt,
       [] ++ [SetState "setIsImageLoading" (JBool true);
              SetState "setGeneratedImages" (JArr [])]
          ++ map Core evs
          ++ [SetState "setGeneratedImages"
                (JArr [JStr "data:image/png;base64,iVBORw0KGgo=";
                       JStr "data:image/png;base64,iVBORw0KGgp="])]
          ++ [SetState "setIsImageLoading" (JBool false)]).
Proof.
  destruct (handleGenerateImages_run (always images_200) JSON_stringify
              Number_toString "KEY" inputs concept [])
    as (_ & _ & Hrun).
  eexists.
  eapply (Hrun eq_refl _ (Normal predictions)).
  - reflexivity.
  - vm_compute. reflexivity.
Defined.

End MoreRuns.
